(** * ice-experiment-analyzer: a shallow embedding of the timestamp join

    The development follows the Python package [ice_analyzer]:
    - [dewesoft_reader.read_data]              (mechanical test files),
    - [sbe_reader], [sbe_w_density_reader], [tstick_reader]
                                               (environmental parsers and
                                                their nearest-timestamp
                                                locators),
    - [main.IceExperimentAnalyzer]             (the orchestrator).

    Conventions of the embedding.
    - An instant is a count of nanoseconds since 1970-01-01 00:00:00, an
      integer of [Z]; a Python [datetime] is such a count that is a
      multiple of 1000. A numpy [datetime64] is [option Z], [None] being
      NaT. Differences of instants are exact: the 64-bit range of numpy
      (instants more than 2^63 ns, about 292 years, apart) is not modelled.
    - A Python [float] is a rational of [Q], the number its decimal text
      denotes; a float that may be NaN is [option Q]. Binary rounding, inf
      and nan literals are outside the model.
    - A raised exception is a value [Raise e] of [result]; [try/except]
      is a match on it.
    - A text file is the list of its lines, each with its line terminator,
      as iterating over a Python file object yields them; decoding errors
      are outside the model. *)

From Stdlib Require Import ZArith QArith Qround Lqa Ascii String List Sorting.Sorted.
From stdpp Require Import base option list sorting strings gmap.

Local Open Scope string_scope.
Local Open Scope list_scope.
Local Open Scope Z_scope.

(* ===================================================================== *)
(** ** Exceptions *)

Inductive exn : Type :=
  | ValueError
  | IndexError
  | TypeError
  | OverflowError
  | FileNotFoundError.

Inductive result (A : Type) : Type :=
  | Ok (a : A)
  | Raise (e : exn).
Arguments Ok {A} a.
Arguments Raise {A} e.

Definition rbind {A B : Type} (r : result A) (k : A -> result B) : result B :=
  match r with
  | Ok a => k a
  | Raise e => Raise e
  end.

Notation "'let!' x ':=' r 'in' k" := (rbind r (fun x => k))
  (at level 10, x pattern, r at level 100, k at level 200).

(** [o or_raise e]: the value of [o], or exception [e]. *)
Definition or_raise {A : Type} (o : option A) (e : exn) : result A :=
  match o with
  | Some a => Ok a
  | None => Raise e
  end.

(** The loop [for x in xs: acc = f acc x], stopped by the first exception. *)
Fixpoint for_each {A S : Type} (f : S -> A -> result S) (xs : list A) (s : S)
  : result S :=
  match xs with
  | [] => Ok s
  | x :: xs' => let! s' := f s x in for_each f xs' s'
  end.

(* ===================================================================== *)
(** ** Python string methods *)

Module Str.

Definition chars : string -> list ascii := list_ascii_of_string.
Definition of_chars : list ascii -> string := string_of_list_ascii.

(** [s.startswith(p)] *)
Definition startswith (s p : string) : bool := String.prefix p s.

Definition is_empty (s : string) : bool :=
  match s with
  | EmptyString => true
  | _ => false
  end.

Fixpoint lstrip_by (f : ascii -> bool) (s : string) : string :=
  match s with
  | String a s' => if f a then lstrip_by f s' else s
  | EmptyString => EmptyString
  end.

Definition strip_by (f : ascii -> bool) (s : string) : string :=
  String.rev (lstrip_by f (String.rev (lstrip_by f s))).

(** [s.strip()] *)
Definition strip : string -> string := strip_by Ascii.is_space.

(** [s.strip(c)] for a one-character argument *)
Definition strip_char (c : ascii) : string -> string :=
  strip_by (fun a => if ascii_dec a c then true else false).

(** [s.split()] *)
Definition split_ws : string -> list string := String.words.

(** [s.split(c)] for a one-character separator: never empty. *)
Fixpoint split_char_go (c : ascii) (cur : string) (s : string) : list string :=
  match s with
  | EmptyString => [String.rev cur]
  | String a s' =>
      if ascii_dec a c
      then String.rev cur :: split_char_go c EmptyString s'
      else split_char_go c (String a cur) s'
  end.
Definition split_char (c : ascii) (s : string) : list string :=
  split_char_go c EmptyString s.

(** The first occurrence of a non-empty [sep] in [s]: the text before
    and the text after it. *)
Fixpoint partition_go (sep : string) (cur : string) (s : string)
  : option (string * string) :=
  if String.prefix sep s
  then Some (String.rev cur,
             String.substring (String.length sep)
                              (String.length s - String.length sep) s)
  else match s with
       | EmptyString => None
       | String a s' => partition_go sep (String a cur) s'
       end.
Definition partition (sep : string) (s : string) : option (string * string) :=
  partition_go sep EmptyString s.

(** [sub in s] *)
Definition contains (sub s : string) : bool :=
  match partition sub s with
  | Some _ => true
  | None => false
  end.

(** [s.split(sep, 1)] *)
Definition split_once (sep s : string) : list string :=
  match partition sep s with
  | Some (a, b) => [a; b]
  | None => [s]
  end.

(** [s.split(sep)[0]] *)
Definition split_head (sep s : string) : string :=
  match partition sep s with
  | Some (a, _) => a
  | None => s
  end.

Definition lower_char (a : ascii) : ascii :=
  let n := nat_of_ascii a in
  if ((65 <=? n)%nat && (n <=? 90)%nat)%bool then ascii_of_nat (n + 32) else a.

(** [s.lower()] on ASCII text *)
Fixpoint lower (s : string) : string :=
  match s with
  | EmptyString => EmptyString
  | String a s' => String (lower_char a) (lower s')
  end.

(** [s.endswith(p)] *)
Definition endswith (s p : string) : bool :=
  String.prefix (String.rev p) (String.rev s).

(** [s[i:j]] for [0 <= i <= j] *)
Definition slice (i j : nat) (s : string) : string :=
  String.substring i (j - i) s.

(** [sep.join(l)] *)
Definition join (sep : string) (l : list string) : string :=
  String.concat sep l.

End Str.

(* ===================================================================== *)
(** ** Decimal numerals *)

Module Num.

Definition digit (a : ascii) : option Z := Z.of_nat <$> Ascii.is_nat a.

Definition is_digit (a : ascii) : bool :=
  match Ascii.is_nat a with
  | Some _ => true
  | None => false
  end.

(** The longest prefix of digits of [s], at most [fuel] long: its value,
    its length and the rest of [s]. *)
Fixpoint take_digits (fuel : nat) (acc : Z) (n : nat) (s : string)
  : Z * nat * string :=
  match fuel, s with
  | S fuel', String a s' =>
      match digit a with
      | Some d => take_digits fuel' (10 * acc + d) (S n) s'
      | None => (acc, n, s)
      end
  | _, _ => (acc, n, s)
  end.

Definition digits_all (s : string) : Z * nat * string :=
  take_digits (String.length s) 0 0%nat s.

Definition sign_of (s : string) : Z * string :=
  match s with
  | String "-" s' => (-1, s')
  | String "+" s' => (1, s')
  | _ => (1, s)
  end.

Definition pow10 (n : nat) : Z := 10 ^ Z.of_nat n.

(** The exponent part [e[+-]ddd] of a numeral, if any. *)
Definition exponent (s : string) : option Z :=
  match s with
  | EmptyString => Some 0
  | String a s' =>
      if (if ascii_dec a "e" then true else if ascii_dec a "E" then true else false)
      then let '(sg, s1) := sign_of s' in
           match digits_all s1 with
           | (v, S _, EmptyString) => Some (sg * v)
           | _ => None
           end
      else None
  end.

Definition scale (q : Q) (e : Z) : Q :=
  if 0 <=? e then (q * inject_Z (10 ^ e))%Q else (q / inject_Z (10 ^ (- e)))%Q.

(** [float(s)]: surrounding blanks, a sign, digits with an optional
    fraction, an optional exponent. [None] is Python's [ValueError]. *)
Definition py_float (s : string) : option Q :=
  let '(sg, s1) := sign_of (Str.strip s) in
  let '(ip, ni, s2) := digits_all s1 in
  let '(fp, nf, s3) :=
    match s2 with
    | String "." s2' => digits_all s2'
    | _ => (0, 0%nat, s2)
    end in
  match (ni + nf)%nat with
  | O => None
  | _ =>
      match exponent s3 with
      | Some e =>
          Some (Qred (scale (inject_Z sg * (inject_Z ip + inject_Z fp / inject_Z (pow10 nf)))%Q e))
      | None => None
      end
  end.

(** Rounding to the nearest integer, ties to even. *)
Definition round_half_even (q : Q) : Z :=
  let f := Qfloor q in
  let r := (q - inject_Z f)%Q in
  match (r ?= (1 # 2))%Q with
  | Lt => f
  | Gt => f + 1
  | Eq => if Z.even f then f else f + 1
  end.

(** Truncation toward zero, [int(x)]. *)
Definition trunc (q : Q) : Z :=
  if Qle_bool 0 q then Qfloor q else Qceiling q.

Fixpoint nat_digits (fuel : nat) (n : Z) (acc : string) : string :=
  match fuel with
  | O => acc
  | S fuel' =>
      let acc' := String (ascii_of_nat (48 + Z.to_nat (n mod 10))) acc in
      if n / 10 =? 0 then acc' else nat_digits fuel' (n / 10) acc'
  end.

(** The decimal numeral of [n >= 0]. *)
Definition show_nat (n : Z) : string :=
  nat_digits (S (Z.to_nat (Z.log2 n))) n EmptyString.

(** [n] written with at least [w] digits, zero padded ([%0wd]). *)
Definition pad0 (w : nat) (s : string) : string :=
  match (w - String.length s)%nat with
  | O => s
  | S k => String.append (Str.of_chars (repeat "0"%char (S k))) s
  end.
Definition show_pad (w : nat) (n : Z) : string := pad0 w (show_nat n).

(** [format(x, ".pf")] of a float. *)
Definition format_f (p : nat) (q : Q) : string :=
  let n := round_half_even (q * inject_Z (pow10 p))%Q in
  let a := Z.abs n in
  let sg := if Qle_bool 0 q then "" else "-" in
  match p with
  | O => sg +:+ show_nat a
  | _ => sg +:+ show_nat (a / pow10 p) +:+ "." +:+ show_pad p (a mod pow10 p)
  end.

End Num.

(* ===================================================================== *)
(** ** Calendar, instants, [strptime] and [strftime] *)

Module DT.

(** Days from 1970-01-01 to the proleptic Gregorian date [y]-[m]-[d]. *)
Definition days_from_civil (y m d : Z) : Z :=
  let y' := if m <=? 2 then y - 1 else y in
  let era := y' / 400 in
  let yoe := y' - era * 400 in
  let mp := if 2 <? m then m - 3 else m + 9 in
  let doy := (153 * mp + 2) / 5 + d - 1 in
  let doe := yoe * 365 + yoe / 4 - yoe / 100 + doy in
  era * 146097 + doe - 719468.

(** The date that is [z] days after 1970-01-01. *)
Definition civil_from_days (z : Z) : Z * Z * Z :=
  let z' := z + 719468 in
  let era := z' / 146097 in
  let doe := z' - era * 146097 in
  let yoe := (doe - doe / 1460 + doe / 36524 - doe / 146096) / 365 in
  let doy := doe - (365 * yoe + yoe / 4 - yoe / 100) in
  let mp := (5 * doy + 2) / 153 in
  let d := doy - (153 * mp + 2) / 5 + 1 in
  let m := if mp <? 10 then mp + 3 else mp - 9 in
  let y := yoe + era * 400 in
  ((if m <=? 2 then y + 1 else y), m, d).

Definition is_leap (y : Z) : bool :=
  ((y mod 4 =? 0) && negb (y mod 100 =? 0) || (y mod 400 =? 0))%bool.

Definition days_in_month (y m : Z) : Z :=
  if m =? 2 then (if is_leap y then 29 else 28)
  else if ((m =? 4) || (m =? 6) || (m =? 9) || (m =? 11))%bool then 30
  else 31.

Record fields : Type := mkFields {
  f_year : Z; f_month : Z; f_day : Z;
  f_hour : Z; f_minute : Z; f_second : Z;
  f_nanos : Z
}.

Definition fields0 : fields := mkFields 1900 1 1 0 0 0 0.

Definition ns_per_second : Z := 1000000000.
Definition ns_per_day : Z := 86400 * ns_per_second.

(** [datetime(y, m, d, H, M, S, ...)]: [None] when a field is out of
    range (Python's [ValueError]). *)
Definition valid_fields (f : fields) : bool :=
  ((1 <=? f_year f) && (f_year f <=? 9999) &&
   (1 <=? f_month f) && (f_month f <=? 12) &&
   (1 <=? f_day f) && (f_day f <=? days_in_month (f_year f) (f_month f)) &&
   (0 <=? f_hour f) && (f_hour f <=? 23) &&
   (0 <=? f_minute f) && (f_minute f <=? 59) &&
   (0 <=? f_second f) && (f_second f <=? 59) &&
   (0 <=? f_nanos f) && (f_nanos f <? ns_per_second))%bool.

Definition instant_of_fields (f : fields) : option Z :=
  if valid_fields f
  then Some (days_from_civil (f_year f) (f_month f) (f_day f) * ns_per_day
             + (f_hour f * 3600 + f_minute f * 60 + f_second f) * ns_per_second
             + f_nanos f)
  else None.

Definition fields_of_instant (t : Z) : fields :=
  let days := t / ns_per_day in
  let r := t mod ns_per_day in
  let '(y, m, d) := civil_from_days days in
  let secs := r / ns_per_second in
  mkFields y m d (secs / 3600) (secs mod 3600 / 60) (secs mod 60)
           (r mod ns_per_second).

(** [datetime(y, m, d, H, M, S)] for fields known to be in range. *)
Definition datetime (y m d H M S : Z) : Z :=
  default 0 (instant_of_fields (mkFields y m d H M S 0)).

(** The range of Python's [datetime]. *)
Definition datetime_min : Z := days_from_civil 1 1 1 * ns_per_day.
Definition datetime_max : Z := days_from_civil 10000 1 1 * ns_per_day - 1000.

(** The range of a 64-bit nanosecond [Timestamp] of pandas. *)
Definition timestamp_min : Z := - 2 ^ 63 + 1.
Definition timestamp_max : Z := 2 ^ 63 - 1.

(** [timedelta(hours=h, minutes=m)] *)
Definition timedelta_hm (h m : Z) : Z := (h * 3600 + m * 60) * ns_per_second.

(** [timedelta(seconds=x)] for a float [x]: rounded to microseconds. *)
Definition timedelta_seconds (x : Q) : Z :=
  1000 * Num.round_half_even (x * inject_Z 1000000)%Q.

(** [dt + td] on Python datetimes. *)
Definition datetime_add (t d : Z) : result Z :=
  let r := t + d in
  if ((datetime_min <=? r) && (r <=? datetime_max))%bool
  then Ok r else Raise OverflowError.

(** *** Format strings *)

Inductive directive : Type :=
  | DY | Dm | Dd | DH | DM | DS | Df
  | DLit (a : ascii).

Fixpoint parse_format (s : string) : list directive :=
  match s with
  | EmptyString => []
  | String "%" (String c s') =>
      (if ascii_dec c "Y" then DY
       else if ascii_dec c "m" then Dm
       else if ascii_dec c "d" then Dd
       else if ascii_dec c "H" then DH
       else if ascii_dec c "M" then DM
       else if ascii_dec c "S" then DS
       else if ascii_dec c "f" then Df
       else DLit c) :: parse_format s'
  | String a s' => DLit a :: parse_format s'
  end.

(** Between [lo] and [hi] digits, as many as there are. *)
Definition scan_digits (lo hi : nat) (s : string) : option (Z * nat * string) :=
  let '(v, n, rest) := Num.take_digits hi 0 0%nat s in
  if (lo <=? n)%nat then Some (v, n, rest) else None.

(** One directive of the format against the head of the text. [fmax] is
    the longest fraction [%f] reads: 6 digits in Python, 9 in pandas. *)
Definition scan_directive (fmax : nat) (d : directive) (st : fields * string)
  : option (fields * string) :=
  let '(f, s) := st in
  let set2 (k : Z -> fields) :=
    '(v, _, rest) ← scan_digits 1 2 s; Some (k v, rest) in
  match d with
  | DY => '(v, _, rest) ← scan_digits 4 4 s;
          Some (mkFields v (f_month f) (f_day f) (f_hour f) (f_minute f)
                         (f_second f) (f_nanos f), rest)
  | Dm => set2 (fun v => mkFields (f_year f) v (f_day f) (f_hour f)
                                  (f_minute f) (f_second f) (f_nanos f))
  | Dd => set2 (fun v => mkFields (f_year f) (f_month f) v (f_hour f)
                                  (f_minute f) (f_second f) (f_nanos f))
  | DH => set2 (fun v => mkFields (f_year f) (f_month f) (f_day f) v
                                  (f_minute f) (f_second f) (f_nanos f))
  | DM => set2 (fun v => mkFields (f_year f) (f_month f) (f_day f) (f_hour f)
                                  v (f_second f) (f_nanos f))
  | DS => set2 (fun v => mkFields (f_year f) (f_month f) (f_day f) (f_hour f)
                                  (f_minute f) v (f_nanos f))
  | Df => '(v, n, rest) ← scan_digits 1 fmax s;
          Some (mkFields (f_year f) (f_month f) (f_day f) (f_hour f)
                         (f_minute f) (f_second f) (v * Num.pow10 (9 - n)),
                rest)
  | DLit a =>
      if Ascii.is_space a
      then match s with
           | String b s' =>
               if Ascii.is_space b
               then Some (f, Str.lstrip_by Ascii.is_space s')
               else None
           | EmptyString => None
           end
      else match s with
           | String b s' => if ascii_dec a b then Some (f, s') else None
           | EmptyString => None
           end
  end.

Fixpoint scan (fmax : nat) (ds : list directive) (st : fields * string)
  : option (fields * string) :=
  match ds with
  | [] => Some st
  | d :: ds' => st' ← scan_directive fmax d st; scan fmax ds' st'
  end.

Definition parse_with (fmax : nat) (s fmt : string) : option Z :=
  '(f, rest) ← scan fmax (parse_format fmt) (fields0, s);
  if Str.is_empty rest then instant_of_fields f else None.

(** [datetime.strptime(s, fmt)]; [None] is its [ValueError]. *)
Definition strptime (s fmt : string) : option Z := parse_with 6 s fmt.

(** [pd.to_datetime(s, format=fmt)]; [None] is its [ValueError], which
    includes a date outside the 64-bit nanosecond range. *)
Definition to_datetime (s fmt : string) : option Z :=
  t ← parse_with 9 s fmt;
  if ((timestamp_min <=? t) && (t <=? timestamp_max))%bool then Some t else None.

Definition show_directive (f : fields) (d : directive) : string :=
  match d with
  | DY => Num.show_pad 4 (f_year f)
  | Dm => Num.show_pad 2 (f_month f)
  | Dd => Num.show_pad 2 (f_day f)
  | DH => Num.show_pad 2 (f_hour f)
  | DM => Num.show_pad 2 (f_minute f)
  | DS => Num.show_pad 2 (f_second f)
  | Df => Num.show_pad 6 (f_nanos f / 1000)
  | DLit a => String a EmptyString
  end.

(** [t.strftime(fmt)] *)
Definition strftime (t : Z) (fmt : string) : string :=
  String.concat "" (show_directive (fields_of_instant t) <$> parse_format fmt).

End DT.

(* ===================================================================== *)
(** ** numpy reductions *)

Module Np.

(** A [datetime64] or [timedelta64] value: [None] is NaT. *)
Abbreviation datetime64 := (option Z) (only parsing).

(** The scan of [np.argmin] over a [timedelta64] array: the first NaT
    ends it, otherwise a strictly smaller element replaces the best. *)
Fixpoint argmin_from (best : Z) (bi i : nat) (l : list datetime64) : nat :=
  match l with
  | [] => bi
  | None :: _ => i
  | Some x :: l' =>
      if x <? best then argmin_from x i (S i) l'
      else argmin_from best bi (S i) l'
  end.

(** [np.argmin(a)]; an empty array raises [ValueError]. *)
Definition argmin (l : list datetime64) : result nat :=
  match l with
  | [] => Raise ValueError
  | None :: _ => Ok 0%nat
  | Some x :: l' => Ok (argmin_from x 0 1 l')
  end.

Fixpoint argmax_from (best : Q) (bi i : nat) (l : list Q) : nat :=
  match l with
  | [] => bi
  | x :: l' =>
      if Qle_bool x best then argmax_from best bi (S i) l'
      else argmax_from x i (S i) l'
  end.

(** [np.argmax(a)] on floats; an empty array raises [ValueError]. *)
Definition argmax (l : list Q) : result nat :=
  match l with
  | [] => Raise ValueError
  | x :: l' => Ok (argmax_from x 0 1 l')
  end.

(** [np.abs(values - target)] *)
Definition abs_diff (target : Z) (values : list datetime64) : list datetime64 :=
  (fun v : option Z => (fun t => Z.abs (t - target)) <$> v) <$> values.

(** [i] is the first index at which [keys] is least. *)
Definition first_argmin (keys : list Z) (i : nat) : Prop :=
  exists m, keys !! i = Some m /\
    (forall j x, keys !! j = Some x -> m <= x) /\
    (forall j x, (j < i)%nat -> keys !! j = Some x -> m < x).

(** [i] is the first index at which [keys] is greatest. *)
Definition first_argmax (keys : list Q) (i : nat) : Prop :=
  exists m, keys !! i = Some m /\
    (forall j x, keys !! j = Some x -> (x <= m)%Q) /\
    (forall j x, (j < i)%nat -> keys !! j = Some x -> (x < m)%Q).

(** [a[i]] *)
Definition item {A : Type} (a : list A) (i : nat) : result A :=
  or_raise (a !! i) IndexError.

End Np.

(* ===================================================================== *)
(** ** The file system seen through [glob] *)

(** A file: its name in the folder and its lines. *)
Definition file : Type := string * list string.

(** [fnmatch] for patterns whose only wildcard is the star. *)
Fixpoint fnmatch (p : string) : string -> bool :=
  match p with
  | EmptyString => Str.is_empty
  | String c p' =>
      if ascii_dec c "*"
      then fix star (s : string) : bool :=
             (fnmatch p' s ||
              match s with
              | EmptyString => false
              | String _ s' => star s'
              end)%bool
      else fun s =>
             match s with
             | String b s' => if ascii_dec c b then fnmatch p' s' else false
             | EmptyString => false
             end
  end.

(** A name that starts with a dot is matched only by a pattern that
    starts with a dot. *)
Definition glob_match (pattern name : string) : bool :=
  (fnmatch pattern name &&
   (negb (Str.startswith name ".") || Str.startswith pattern "."))%bool.

Definition name_le (f g : file) : Prop := String.le f.1 g.1.
#[local] Instance name_le_dec : RelDecision name_le.
Proof. intros f g. unfold name_le. apply _. Defined.

(** [sorted(glob.glob(pattern))] in directory [dir] *)
Definition sorted_glob (dir : list file) (pattern : string) : list file :=
  merge_sort name_le (filter (fun f => glob_match pattern f.1 = true) dir).

(* ===================================================================== *)
(** ** dewesoft_reader.py *)

(** [correct_start_time(metadata)], the local function of [read_data]:
    the first line that starts with [Start time:] is parsed, moved back
    by 1 h 44 min and rewritten in place. *)
Fixpoint correct_start_time (metadata : list string)
  : result (list string * option Z) :=
  match metadata with
  | [] => Ok ([], None)
  | line :: rest =>
      if Str.startswith line "Start time:"
      then
        let! time_str := Np.item (Str.split_once ": " line) 1 in
        let! original_time :=
          or_raise (DT.strptime time_str "%m/%d/%Y %H:%M:%S.%f") ValueError in
        let! corrected_time :=
          DT.datetime_add original_time (- DT.timedelta_hm 1 44) in
        Ok (("Start time (Corrected, UTC): "
               +:+ DT.strftime corrected_time "%m/%d/%Y %H:%M:%S") :: rest,
            Some corrected_time)
      else
        let! (rest', t) := correct_start_time rest in
        Ok (line :: rest', t)
  end.

(** The state of the loop over the lines of a test file. *)
Record read_state : Type := mkReadState {
  rs_metadata : list string;
  rs_data_start : bool;
  rs_time_vals : list Q;
  rs_force_vals : list Q
}.

Definition read_line (st : read_state) (line0 : string) : result read_state :=
  let line := Str.strip line0 in
  if Str.startswith line "Data1"
  then Ok (mkReadState (rs_metadata st) true (rs_time_vals st) (rs_force_vals st))
  else if negb (rs_data_start st)
  then Ok (mkReadState (rs_metadata st ++ [line]) false
                       (rs_time_vals st) (rs_force_vals st))
  else if (negb (Str.is_empty line) && negb (Str.startswith line "Time"))%bool
  then
    let parts := Str.split_char "009" line in
    let! p0 := Np.item parts 0 in
    let! t := or_raise (Num.py_float p0) ValueError in
    let! p1 := Np.item parts 1 in
    let! f := or_raise (Num.py_float p1) ValueError in
    Ok (mkReadState (rs_metadata st) true
                    (rs_time_vals st ++ [t]) (rs_force_vals st ++ [f]))
  else Ok st.

(** [read_data(file_path)] on the lines of the file:
    (metadata, time_vals, force_vals, corrected_time). *)
Definition read_data (lines : list string)
  : result (list string * list Q * list Q * option Z) :=
  let! st := for_each read_line lines (mkReadState [] false [] []) in
  let! (metadata, corrected_time) := correct_start_time (rs_metadata st) in
  Ok (metadata, rs_time_vals st, rs_force_vals st, corrected_time).

(* ===================================================================== *)
(** ** sbe_reader.py *)

(** One index of the CTD dataset: the [datetime] coordinate and the three
    data variables at it. The dataset is the list of its indices. *)
Record sbe_row : Type := mkSbeRow {
  sbe_datetime : Z;
  sbe_T_deg : Q;
  sbe_Sal : Q;
  sbe_SV : Q
}.
Definition sbe_dataset : Type := list sbe_row.

Definition sbe_format : string := "%Y-%m-%d %H:%M:%S.%f".

Definition is_valid_datetime (line : string) : bool :=
  if Str.startswith line "["
  then match DT.to_datetime (Str.slice 1 24 line) sbe_format with
       | Some _ => true
       | None => false
       end
  else false.

(** The body of the loop over the valid lines: the rows one line adds. *)
Definition sbe_line_rows (line : string) : list sbe_row :=
  match DT.to_datetime (Str.slice 1 24 line) sbe_format with
  | None => []
  | Some datetime_obj =>
      if Str.contains "#" line
      then
        let data_str := Str.strip (default "" (Str.split_char "#" line !! 1%nat)) in
        let data_parts := Str.split_char "," data_str in
        if (5 <=? length data_parts)%nat
        then
          match Num.py_float (Str.strip (default "" (data_parts !! 0%nat))),
                Num.py_float (Str.strip (default "" (data_parts !! 3%nat))),
                Num.py_float (Str.strip (default "" (data_parts !! 2%nat))) with
          | Some T_deg, Some SV, Some Sal => [mkSbeRow datetime_obj T_deg Sal SV]
          | _, _, _ => []
          end
        else []
      else []
  end.

Definition sbe_file_rows (lines : list string) : list sbe_row :=
  let valid_lines := filter (fun l => is_valid_datetime l = true) lines in
  flat_map sbe_line_rows valid_lines.

(** The list [rows] when the loop over the files ends. *)
Definition sbe_rows (files : list file) : list sbe_row :=
  flat_map (fun f => sbe_file_rows f.2) files.

(** [read_sbe_data(file_path_pattern)] in directory [dir] *)
Definition read_sbe_data (dir : list file) (file_path_pattern : string)
  : result (option sbe_dataset) :=
  let rows := sbe_rows (sorted_glob dir file_path_pattern) in
  match rows with
  | [] => Ok None
  | _ => Ok (Some rows)
  end.

(** [ds['datetime'].values] *)
Definition sbe_datetime_values (ds : sbe_dataset) : list Np.datetime64 :=
  (fun r => Some (sbe_datetime r)) <$> ds.

(** [find_closest_timestamp(ds_sbe, target_datetime)] *)
Definition find_closest_timestamp (ds_sbe : option sbe_dataset) (target_datetime : Z)
  : result (Z * Q * Q * Q) :=
  match ds_sbe with
  | None => Raise TypeError
  | Some ds =>
      let time_diffs := Np.abs_diff target_datetime (sbe_datetime_values ds) in
      let! closest_idx := Np.argmin time_diffs in
      let! r := Np.item ds closest_idx in
      Ok (sbe_datetime r, sbe_T_deg r, sbe_Sal r, sbe_SV r)
  end.

(* ===================================================================== *)
(** ** sbe_w_density_reader.py *)

(** One index of the density dataset. *)
Record density_row : Type := mkDensityRow {
  den_datetime : Z;
  den_Salinity : Q;
  den_Temperature : Q;
  den_ElapsedTime : Q;
  den_SoundVelocity : Q;
  den_Density : Q;
  den_Flag : Q
}.
Definition density_dataset : Type := list density_row.

(** [next((i for i, line in enumerate(lines) if '*END*' in line), None)] *)
Fixpoint find_end_index (lines : list string) : option nat :=
  match lines with
  | [] => None
  | line :: rest =>
      if Str.contains "*END*" line then Some 0%nat
      else S <$> find_end_index rest
  end.

(** [next((line for line in lines
           if line.lower().startswith('# start_time')), None)] *)
Definition find_start_time_line (lines : list string) : option string :=
  head (filter (fun l => Str.startswith (Str.lower l) "# start_time" = true) lines).

(** [[float(part) for part in parts]]; [None] is the [ValueError]. *)
Definition floats (parts : list string) : option (list Q) :=
  mapM Num.py_float parts.

(** The rows a data line adds to [data]. *)
Definition density_line_rows (line : string) : list (list Q) :=
  let parts := Str.split_ws line in
  if (7 <=? length parts)%nat
  then match floats (take 7 parts) with
       | Some row => [row]
       | None => []
       end
  else [].

Definition fallback_year : Z := 2025.

(** [pd.to_timedelta(x, unit='D')] on a float, in nanoseconds: the whole
    days, and the fraction of a day rounded to nine decimals. *)
Definition to_timedelta_D (x : Q) : Z :=
  let base := Num.trunc x in
  let frac := (x - inject_Z base)%Q in
  let frac9 := (inject_Z (Num.round_half_even (frac * inject_Z (10 ^ 9))%Q)
                / inject_Z (10 ^ 9))%Q in
  base * DT.ns_per_day + Num.trunc (frac9 * inject_Z DT.ns_per_day)%Q.

(** [pd.to_datetime(f"{year}-01-01 00:00:00")] *)
Definition julian_base_time (year : Z) : Z := DT.datetime year 1 1 0 0 0.

(** A row of the frame with its [DateTime] column. *)
Definition density_row_of (year : Z) (row : list Q) : density_row :=
  let col (i : nat) := default 0%Q (row !! i) in
  mkDensityRow (julian_base_time year + to_timedelta_D (col 3%nat - 1)%Q)
               (col 0%nat) (col 1%nat) (col 2%nat) (col 4%nat) (col 5%nat)
               (col 6%nat).

Section FlexibleDates.

(** [pd.to_datetime(s)] without a format is the flexible date parser of
    pandas. The development is parametric in it: [None] stands for any
    exception it raises. *)
Variable pd_to_datetime : string -> option Z.

(** The year of the [# start_time = ...] header of one file. *)
Definition header_year (lines : list string) : Z :=
  match find_start_time_line lines with
  | Some start_time_line =>
      match Str.split_char "=" start_time_line !! 1%nat with
      | Some after =>
          let time_str := Str.split_head " [" (Str.strip after) in
          match pd_to_datetime time_str with
          | Some start_dt => DT.f_year (DT.fields_of_instant start_dt)
          | None => fallback_year
          end
      | None => fallback_year
      end
  | None => fallback_year
  end.

(** One turn of the loop over the files: [data] grows and [year] is
    assigned again. *)
Definition density_file (st : list (list Q) * Z) (f : file)
  : result (list (list Q) * Z) :=
  let lines := f.2 in
  let! end_index := or_raise (find_end_index lines) ValueError in
  let data_lines := drop (S end_index) lines in
  let year := header_year lines in
  Ok ((st.1 ++ flat_map density_line_rows data_lines)%list, year).

(** The rows of the data section of one file, [[]] without a marker. *)
Definition density_file_rows (f : file) : list (list Q) :=
  match find_end_index f.2 with
  | Some end_index => flat_map density_line_rows (drop (S end_index) f.2)
  | None => []
  end.

(** [process_sbe37cnv_data(file_path_pattern)] in directory [dir] *)
Definition process_sbe37cnv_data (dir : list file) (file_path_pattern : string)
  : result density_dataset :=
  let file_paths := sorted_glob dir file_path_pattern in
  match file_paths with
  | [] => Raise FileNotFoundError
  | _ =>
      let! (data, year) := for_each density_file file_paths ([], fallback_year) in
      let ds_sbe_pro := density_row_of year <$> data in
      (* print("Letzter Zeitstempel:", ...values[-1]) *)
      let! _ := or_raise (last ds_sbe_pro) IndexError in
      Ok ds_sbe_pro
  end.

End FlexibleDates.

Definition density_datetime_values (ds : density_dataset) : list Np.datetime64 :=
  (fun r => Some (den_datetime r)) <$> ds.

(** [find_closest_density(ds_sbe, target_datetime)]:
    (timestamp, Temperature, Salinity, SoundVelocity, Density). *)
Definition find_closest_density (ds_sbe : option density_dataset) (target_datetime : Z)
  : result (Z * Q * Q * Q * Q) :=
  match ds_sbe with
  | None => Raise TypeError
  | Some ds =>
      let time_diffs := Np.abs_diff target_datetime (density_datetime_values ds) in
      let! closest_idx := Np.argmin time_diffs in
      let! r := Np.item ds closest_idx in
      Ok (den_datetime r, den_Temperature r, den_Salinity r,
          den_SoundVelocity r, den_Density r)
  end.

(* ===================================================================== *)
(** ** tstick_reader.py *)

(** The pieces of the line pattern. *)
Inductive re : Type :=
  | RLit (a : ascii)      (* the character itself *)
  | RDigit                (* \d  *)
  | RSpace                (* \s  *)
  | RDigits               (* \d+ *)
  | ROptMinus.            (* -?  *)

(** [pattern.match(line)] for a sequence of pieces: the text left after
    the match. In the pattern below a [\d+] is followed by a
    character that is no digit, so the longest run of digits is the only
    candidate. *)
Fixpoint re_match (p : list re) (s : string) : option string :=
  match p with
  | [] => Some s
  | r :: p' =>
      match r, s with
      | ROptMinus, String "-" s' => re_match p' s'
      | ROptMinus, _ => re_match p' s
      | RLit a, String b s' => if ascii_dec a b then re_match p' s' else None
      | RDigit, String b s' => if Num.is_digit b then re_match p' s' else None
      | RSpace, String b s' => if Ascii.is_space b then re_match p' s' else None
      | RDigits, String b s' =>
          if Num.is_digit b then re_match p' (Str.lstrip_by Num.is_digit s')
          else None
      | _, EmptyString => None
      end
  end.

Definition re_d (n : nat) : list re := repeat RDigit n.
Definition re_date : list re := re_d 4 ++ [RLit "-"] ++ re_d 2 ++ [RLit "-"] ++ re_d 2.
Definition re_time : list re := re_d 2 ++ [RLit ":"] ++ re_d 2 ++ [RLit ":"] ++ re_d 2.
Definition re_value : list re := [ROptMinus; RDigits; RLit "."; RDigits; RSpace].

(** [\[d{4}-d{2}-d{2} d{2}:d{2}:d{2}\.d{3}\]\s]
    [d{4}-d{2}-d{2}Td{2}:d{2}:d{2}\s] [(-?\d+\.\d+\s){16}] *)
Definition tstick_pattern : list re :=
  [RLit "["] ++ re_date ++ [RLit " "] ++ re_time ++ [RLit "."] ++ re_d 3
    ++ [RLit "]"; RSpace]
    ++ re_date ++ [RLit "T"] ++ re_time ++ [RSpace]
    ++ concat (repeat re_value 16).

Definition pattern_match (line : string) : bool :=
  match re_match tstick_pattern line with
  | Some _ => true
  | None => false
  end.

(** A row of the frame after its first three columns became [datetime]:
    the timestamp (NaT when the text is no date) and the other columns. *)
Record tstick_row : Type := mkTstickRow {
  ts_datetime : option Z;
  ts_T : list (option Q)
}.

(** The dataset: the rows along [datetime], and the coordinate [z]. *)
Record tstick_dataset : Type := mkTstickDataset {
  ts_rows : list tstick_row;
  ts_z : list Q
}.

(** [valid_data] when the loop over the files ends. *)
Definition tstick_valid_data (files : list file) : list string :=
  flat_map (fun f => Str.strip <$> filter (fun l => pattern_match l = true) f.2) files.

(** [pd.to_numeric(x, errors='coerce')] on a cell; a missing cell is NaN. *)
Definition to_numeric (cell : option string) : option Q :=
  cell ≫= Num.py_float.

(** The frame built from the split lines: every row is as wide as the
    longest one, a missing cell is [None]. *)
Definition tstick_frame_row (width : nat) (cells : list string) : tstick_row :=
  let c0 := Str.strip_char "[" (default "" (cells !! 0%nat)) in
  let c1 := Str.strip_char "]" (default "" (cells !! 1%nat)) in
  let datetime := c0 +:+ " " +:+ c1 in
  let T_columns := seq 3 (width - 3) in
  mkTstickRow (DT.to_datetime datetime "%Y-%m-%d %H:%M:%S.%f")
              ((fun i => to_numeric (cells !! i)) <$> T_columns).

(** The number of columns of [pd.DataFrame([line.split() ...])]. *)
Definition frame_width (valid_data : list string) : nat :=
  foldr Nat.max 0%nat (length <$> (Str.split_ws <$> valid_data)).

Definition tstick_frame (valid_data : list string) : list tstick_row :=
  tstick_frame_row (frame_width valid_data) <$> (Str.split_ws <$> valid_data).

Definition count_datetime (t : option Z) (rows : list tstick_row) : nat :=
  length (filter (fun r => ts_datetime r = t) rows).

(** [data[~data['datetime'].duplicated(keep=False)]]: every row whose
    timestamp occurs more than once goes. *)
Definition drop_all_duplicated (rows : list tstick_row) : list tstick_row :=
  filter (fun r => count_datetime (ts_datetime r) rows = 1%nat) rows.

(** The order of [sort_values]: ascending, NaT last. *)
Definition datetime_le (a b : option Z) : Prop :=
  match a, b with
  | Some x, Some y => x <= y
  | _, None => True
  | None, Some _ => False
  end.
Definition datetime_lt (a b : option Z) : Prop :=
  match a, b with
  | Some x, Some y => x < y
  | Some _, None => True
  | None, _ => False
  end.
#[local] Instance datetime_le_dec : RelDecision datetime_le.
Proof. intros [x|] [y|]; simpl; apply _. Defined.

Definition row_le (r1 r2 : tstick_row) : Prop :=
  datetime_le (ts_datetime r1) (ts_datetime r2).
#[local] Instance row_le_dec : RelDecision row_le.
Proof. intros r1 r2. unfold row_le. apply _. Defined.

(** [data.sort_values(by='datetime', ascending=True)] *)
Definition sort_values (rows : list tstick_row) : list tstick_row :=
  merge_sort row_le rows.

(** [ds.drop_duplicates(dim='datetime', keep='first')] *)
Fixpoint drop_duplicates_first (seen : list (option Z)) (rows : list tstick_row)
  : list tstick_row :=
  match rows with
  | [] => []
  | r :: rows' =>
      if decide (ts_datetime r ∈ seen)
      then drop_duplicates_first seen rows'
      else r :: drop_duplicates_first (ts_datetime r :: seen) rows'
  end.

(** [np.arange(16) * 0.02 - 0.07] *)
Definition z_coordinate : list Q :=
  (fun i : nat => (inject_Z (Z.of_nat i) * (2 # 100) - (7 # 100))%Q) <$> seq 0 16.

(** [read_tstick_data(file_path_pattern, downsample_rate=10)] in
    directory [dir]. A frame that is not 16 columns wide besides the
    timestamp does not fit the 16 points of [z]: [xr.Dataset] raises
    [ValueError]. *)
Definition read_tstick_data (dir : list file) (file_path_pattern : string)
  (downsample_rate : Z) : result tstick_dataset :=
  let files := sorted_glob dir file_path_pattern in
  let valid_data := tstick_valid_data files in
  match valid_data with
  | [] => Raise ValueError
  | _ =>
      let data := tstick_frame valid_data in
      let data := drop_all_duplicated data in
      let data := sort_values data in
      if decide ((frame_width valid_data - 3)%nat = length z_coordinate)
      then Ok (mkTstickDataset (drop_duplicates_first [] data) z_coordinate)
      else Raise ValueError
  end.

(** [find_closest_tstick(ds_tsticks, target_datetime)]: the pair of the
    closest timestamp and the profile at it, or [(None, None)]. *)
Definition find_closest_tstick (ds_tsticks : option tstick_dataset) (target_datetime : Z)
  : result (option (option Z) * option (list (option Q))) :=
  match ds_tsticks with
  | None => Ok (None, None)
  | Some ds =>
      let time_diffs := Np.abs_diff target_datetime (ts_datetime <$> ts_rows ds) in
      let! closest_idx := Np.argmin time_diffs in
      let! r := Np.item (ts_rows ds) closest_idx in
      Ok (Some (ts_datetime r), Some (ts_T r))
  end.

(* ===================================================================== *)
(** ** main.py: [IceExperimentAnalyzer] *)

(** The values of the dictionaries [closest_data] and [row_data]: a
    string, or a float that may be NaN. *)
Inductive pyval : Type :=
  | VStr (s : string)
  | VFloat (x : option Q).

Definition nan : pyval := VFloat None.

(** [format(x, ".pf")] of a float that may be NaN. *)
Definition format_float (p : nat) (x : option Q) : string :=
  match x with
  | Some x => Num.format_f p x
  | None => "nan"
  end.

(** [format(v, ".pf")]: a string has no such format, [ValueError]. *)
Definition format_spec_f (p : nat) (v : pyval) : result string :=
  match v with
  | VStr _ => Raise ValueError
  | VFloat x => Ok (format_float p x)
  end.

(** [str(v)] of a value put into an f-string without a format; the
    values that reach it are strings. *)
Definition py_str (v : pyval) : string :=
  match v with
  | VStr s => s
  | VFloat (Some x) => Num.format_f 1 x
  | VFloat None => "nan"
  end.

(** [pd.Timestamp(t).strftime("%Y-%m-%d %H:%M:%S.%f")[:-6]] *)
Definition stamp (t : Z) : string :=
  let s := DT.strftime t "%Y-%m-%d %H:%M:%S.%f" in
  Str.slice 0 (String.length s - 6) s.

(** The same on a [datetime64]: NaT has no [strftime]. *)
Definition stamp64 (t : option Z) : result string :=
  match t with
  | Some t => Ok (stamp t)
  | None => Raise ValueError
  end.

(** [env_data]: the empty dictionary, or the three entries [ds_sbe],
    [ds_tsticks] and [ds_density], each a dataset or [None]. *)
Inductive env_data : Type :=
  | EnvEmpty
  | Env (ds_sbe : option sbe_dataset) (ds_tsticks : option tstick_dataset)
        (ds_density : option density_dataset).

(** [env_data.get(key)]. The truth value of a dataset is that of its
    data variables, of which each dataset here has some: [if
    env_data.get(key)] asks whether the entry is a dataset. *)
Definition get_ds_sbe (e : env_data) : option sbe_dataset :=
  match e with Env a _ _ => a | EnvEmpty => None end.
Definition get_ds_tsticks (e : env_data) : option tstick_dataset :=
  match e with Env _ b _ => b | EnvEmpty => None end.
Definition get_ds_density (e : env_data) : option density_dataset :=
  match e with Env _ _ c => c | EnvEmpty => None end.

(** An experiment folder: its name and the files in it. *)
Record folder : Type := mkFolder {
  folder_name : string;
  folder_files : list file
}.

#[local] Instance exn_eq_dec : EqDecision exn.
Proof. solve_decision. Defined.

(** [try: r except handled: dflt] *)
Definition except {A : Type} (handled : list exn) (dflt : A) (r : result A)
  : result A :=
  match r with
  | Ok a => Ok a
  | Raise e => if decide (e ∈ handled) then Ok dflt else Raise e
  end.

Definition nl : string := String "010" EmptyString.

Section Analyzer.

Variable pd_to_datetime : string -> option Z.

(** [self.reference_time] *)
Variable reference_time : Z.

(** [_load_environmental_data(folder_path)] *)
Definition _load_environmental_data (folder_path : folder) : env_data :=
  let dir := folder_files folder_path in
  let loaded :=
    let! ds_sbe := read_sbe_data dir "SBE*.log" in
    let! ds_tsticks :=
      except [ValueError] None
             (let! ds := read_tstick_data dir "T_Stick_2025*.log" 10 in Ok (Some ds)) in
    let! ds_density :=
      except [FileNotFoundError; ValueError] None
             (let! ds := process_sbe37cnv_data pd_to_datetime dir "*.cnv" in
              Ok (Some ds)) in
    Ok (Env ds_sbe ds_tsticks ds_density) in
  match loaded with
  | Ok env => env
  | Raise _ => EnvEmpty
  end.

(** [_find_test_files(folder_path)] *)
Definition _find_test_files (folder_path : folder) : list file :=
  let patterns := ["Test02_*.txt"; "BiegeF_*.txt"; "Emodul_*.txt"] in
  let test_files :=
    flat_map (fun pattern =>
                filter (fun f => glob_match pattern f.1 = true)
                       (folder_files folder_path)) patterns in
  merge_sort name_le test_files.

(** [_find_closest_measurements(timestamp, env_data)] *)
Definition _find_closest_measurements (timestamp : Z) (env : env_data)
  : result (gmap string pyval) :=
  let closest_data : gmap string pyval := ∅ in
  let! closest_data :=
    match get_ds_sbe env with
    | Some ds =>
        let! (sbe_timestamp, sbe_T, sbe_S, sbe_SV) :=
          find_closest_timestamp (Some ds) timestamp in
        Ok (<["sbe_SV" := VFloat (Some sbe_SV)]>
            (<["sbe_S" := VFloat (Some sbe_S)]>
            (<["sbe_T" := VFloat (Some sbe_T)]>
            (<["sbe_time" := VStr (stamp sbe_timestamp)]> closest_data))))
    | None => Ok closest_data
    end in
  let! closest_data :=
    match get_ds_density env with
    | Some ds =>
        let! (density_timestamp, density_T, density_S, density_SV, density_rho) :=
          find_closest_density (Some ds) timestamp in
        Ok (<["ctd_rho" := VFloat (Some density_rho)]>
            (<["ctd_SV" := VFloat (Some density_SV)]>
            (<["ctd_S" := VFloat (Some density_S)]>
            (<["ctd_T" := VFloat (Some density_T)]>
            (<["ctd_time" := VStr (stamp density_timestamp)]> closest_data)))))
    | None => Ok closest_data
    end in
  match get_ds_tsticks env with
  | Some ds =>
      let! (tstick_timestamp, tstick_temps) := find_closest_tstick (Some ds) timestamp in
      match tstick_temps with
      | Some temps =>
          let! tstick_time := stamp64 (mjoin tstick_timestamp) in
          Ok (<["tstick_profile" := VStr (Str.join ";" (format_float 3 <$> temps))]>
              (<["tstick_time" := VStr tstick_time]> closest_data))
      | None => Ok closest_data
      end
  | None => Ok closest_data
  end.

(** [_create_info_file(test_file, max_timestamp, closest_data)]: the
    path and the text of the file it writes. *)
Definition _create_info_file (folder_path : folder) (test_file : file)
  (max_timestamp : Z) (closest_data : gmap string pyval)
  : result (string * string) :=
  let output_file := folder_name folder_path +:+ "/info_" +:+ test_file.1 in
  let antauzeit_hours :=
    (inject_Z (max_timestamp - reference_time)
     / inject_Z DT.ns_per_second / inject_Z 3600)%Q in
  let get (key : string) := default (VStr "N/A") (closest_data !! key) in
  let! ctd_T := format_spec_f 4 (get "ctd_T") in
  let! ctd_S := format_spec_f 4 (get "ctd_S") in
  let! ctd_SV := format_spec_f 3 (get "ctd_SV") in
  let! ctd_rho := format_spec_f 3 (get "ctd_rho") in
  let content :=
    "File: " +:+ folder_name folder_path +:+ "/" +:+ test_file.1 +:+ nl +:+
    "Max Force Timestamp: " +:+ stamp max_timestamp +:+ nl +:+
    "Antauzeit (hours since "
      +:+ DT.strftime reference_time "%Y-%m-%d %H:%M:%S" +:+ "): "
      +:+ Num.format_f 2 antauzeit_hours +:+ " h" +:+ nl +:+
    nl +:+
    "CTD Data:" +:+ nl +:+
    "- Timestamp: " +:+ py_str (get "ctd_time") +:+ nl +:+
    "- Temperature: " +:+ ctd_T +:+ " °C" +:+ nl +:+
    "- Salinity: " +:+ ctd_S +:+ " [psu]" +:+ nl +:+
    "- Sound Speed: " +:+ ctd_SV +:+ " m/s" +:+ nl +:+
    "- Density: " +:+ ctd_rho +:+ " kg/m³" +:+ nl +:+
    nl +:+
    "T-Stick Data:" +:+ nl +:+
    "- Timestamp: " +:+ py_str (get "tstick_time") +:+ nl +:+
    "- Profile: " +:+ py_str (get "tstick_profile") +:+ nl in
  Ok (output_file, content).

(** The first statements of [_process_test_file]: the test file is read,
    its offsets become datetimes and [max_timestamp] is the one at the
    largest force. The left side of the assignment from [read_data] is
    read with the name [corrected_time], which the next statement uses. *)
Definition max_timestamp_of (lines : list string) : result Z :=
  let! (meta, time_data, force_data, corrected_time) := read_data lines in
  let! time_data_dt :=
    for_each (fun acc t =>
                let! start := or_raise corrected_time TypeError in
                let! dt := DT.datetime_add start (DT.timedelta_seconds t) in
                Ok (acc ++ [dt])%list) time_data [] in
  let! max_idx := Np.argmax force_data in
  Np.item time_data_dt max_idx.

(** The dictionary [row_data] of [_process_test_file]. *)
Definition row_data_of (test_file : file) (max_timestamp : Z)
  (closest_data : gmap string pyval) : gmap string pyval :=
  let get (key : string) (dflt : pyval) := default dflt (closest_data !! key) in
  <["caution" := VStr ""]>
  (<["tstick_profile" := get "tstick_profile" (VStr "N/A")]>
  (<["tstick_time" := get "tstick_time" (VStr "N/A")]>
  (<["ctd_rho" := get "ctd_rho" nan]>
  (<["ctd_SV" := get "ctd_SV" nan]>
  (<["ctd_S" := get "ctd_S" nan]>
  (<["ctd_T" := get "ctd_T" nan]>
  (<["ctd_time" := get "ctd_time" (VStr "N/A")]>
  (<["Experiment_PeakTime" := VStr (stamp max_timestamp)]>
  (<["measurement_file_[.txt]" := VStr test_file.1]>
   (∅ : gmap string pyval)))))))))).

(** The body of [_process_test_file], inside its [try]. *)
Definition process_test_file_body (folder_path : folder) (test_file : file)
  (env : env_data) : result (gmap string pyval) :=
  let! max_timestamp := max_timestamp_of test_file.2 in
  let! closest_data := _find_closest_measurements max_timestamp env in
  let! _ := _create_info_file folder_path test_file max_timestamp closest_data in
  Ok (row_data_of test_file max_timestamp closest_data).

(** [_process_test_file(test_file, env_data)]: any exception is logged
    and the result is [None]. *)
Definition _process_test_file (folder_path : folder) (test_file : file)
  (env : env_data) : option (gmap string pyval) :=
  match process_test_file_body folder_path test_file env with
  | Ok row_data => Some row_data
  | Raise _ => None
  end.

(** [process_single_experiment(folder_path)]: the frame of the rows, or
    [None]. Writing the summary of the folder is left out. *)
Definition process_single_experiment (folder_path : folder)
  : option (list (gmap string pyval)) :=
  match _load_environmental_data folder_path with
  | EnvEmpty => None
  | env =>
      match _find_test_files folder_path with
      | [] => None
      | test_files =>
          let df_rows :=
            flat_map (fun test_file =>
                        match _process_test_file folder_path test_file env with
                        | Some row_data =>
                            if decide (row_data = ∅) then []
                            else [<["experiment_folder" := VStr (folder_name folder_path)]>
                                    row_data]
                        | None => []
                        end) test_files in
          match df_rows with
          | [] => None
          | _ => Some df_rows
          end
      end
  end.

End Analyzer.

(** A name that one of the patterns of [_find_test_files] matches. *)
Definition is_test_name (name : string) : Prop :=
  glob_match "Test02_*.txt" name = true \/
  glob_match "BiegeF_*.txt" name = true \/
  glob_match "Emodul_*.txt" name = true.

(** [self.df_columns] *)
Definition df_columns : list string :=
  ["experiment_folder"; "measurement_file_[.txt]"; "Experiment_PeakTime";
   "ctd_time"; "ctd_T"; "ctd_S"; "ctd_SV"; "ctd_rho";
   "tstick_time"; "tstick_profile"; "caution"].

(** A frame of summary rows, as [process_single_experiment] builds it
    and as [pd.read_csv] returns it. *)
Abbreviation frame := (list (gmap string pyval)) (only parsing).

(** An entry of the base directory: a plain file or a folder. *)
Inductive entry : Type :=
  | EntryFile (name : string)
  | EntryDir (f : folder).

Definition visible_dir (e : entry) : option folder :=
  match e with
  | EntryDir f => if Str.startswith (folder_name f) "." then None else Some f
  | EntryFile _ => None
  end.

(** [find_experiment_folders()]: [base] is [None] when the base path does
    not exist. The folders stand for their names. *)
Definition find_experiment_folders (base : option (list entry))
  : result (list folder) :=
  match base with
  | None => Raise FileNotFoundError
  | Some entries => Ok (omap visible_dir entries)
  end.

(** The strings of the column [experiment_folder]. *)
Definition folder_column (df : list (gmap string pyval)) : list string :=
  omap (fun row : gmap string pyval =>
          match row !! "experiment_folder" with
          | Some (VStr s) => Some s
          | _ => None
          end) df.

(** [get_processed_folders()]: [master] is [None] when the master file
    does not exist, otherwise what [pd.read_csv] makes of it. An
    exception of the reader leaves the set empty. *)
Definition get_processed_folders (master : option (result (list (gmap string pyval))))
  : gset string :=
  match master with
  | Some (Ok existing_df) => list_to_set (folder_column existing_df)
  | _ => ∅
  end.

Definition folder_le (f g : folder) : Prop := String.le (folder_name f) (folder_name g).
#[local] Instance folder_le_dec : RelDecision folder_le.
Proof. intros f g. unfold folder_le. apply _. Defined.

Section Runner.

Variable pd_to_datetime : string -> option Z.
Variable reference_time : Z.

(** The loop of [run_analysis] over the folders and the frame it
    writes to the master file, [None] when it writes nothing. *)
Definition process_folders (folders_to_process : list folder)
  (existing_df : list (gmap string pyval)) : option (list (gmap string pyval)) :=
  let all_results :=
    (match existing_df with [] => [] | _ => [existing_df] end)
      ++ omap (process_single_experiment pd_to_datetime reference_time)
              (merge_sort folder_le folders_to_process) in
  match all_results with
  | [] => None
  | _ => Some (concat all_results)
  end.

(** [run_analysis(skip_existing)]: the frame written to the master
    file, if one is written. *)
Definition run_analysis (base : option (list entry))
  (master : option (result (list (gmap string pyval)))) (skip_existing : bool)
  : result (option (list (gmap string pyval))) :=
  let! experiment_folders := find_experiment_folders base in
  if skip_existing
  then
    let processed_folders := get_processed_folders master in
    let folders_to_process :=
      filter (fun f => folder_name f ∉ processed_folders) experiment_folders in
    match folders_to_process with
    | [] => Ok None
    | _ =>
        let! existing_df :=
          match master with
          | Some read => read
          | None => Ok []
          end in
        Ok (process_folders folders_to_process existing_df)
    end
  else Ok (process_folders experiment_folders []).

End Runner.

(* ===================================================================== *)
(** ** utils/file_utils.py *)

(** The state of the loop of [load_custom_comments]. *)
Record comment_state : Type := mkCommentState {
  cs_comments : gmap string string;
  cs_current_file : option string;
  cs_buffer : list string
}.

(** [if current_file and buffer: comments[current_file] = "\n".join(buffer)] *)
Definition flush_comment (st : comment_state) : gmap string string :=
  match cs_current_file st, cs_buffer st with
  | Some current_file, _ :: _ =>
      if Str.is_empty current_file then cs_comments st
      else <[current_file := Str.join nl (cs_buffer st)]> (cs_comments st)
  | _, _ => cs_comments st
  end.

Definition comment_line (st : comment_state) (line : string) : comment_state :=
  if Str.startswith line "#"
  then mkCommentState (flush_comment st)
                      (Some (Str.strip (Str.slice 1 (String.length line) line))) []
  else if negb (Str.is_empty line)
  then mkCommentState (cs_comments st) (cs_current_file st) (cs_buffer st ++ [line])
  else st.

(** [load_custom_comments(comment_file_path)]: [None] when the file does
    not exist, otherwise its lines. *)
Definition load_custom_comments (comment_file : option (list string))
  : gmap string string :=
  match comment_file with
  | None => ∅
  | Some file_lines =>
      let lines := Str.strip <$> file_lines in
      flush_comment (foldl comment_line (mkCommentState ∅ None []) lines)
  end.

(** The invariant of the loop: no empty key, no empty comment, no empty
    line in the buffer. *)
Definition comments_ok (comments : gmap string string) : Prop :=
  forall k v, comments !! k = Some v -> k <> "" /\ v <> "".

Definition comment_state_ok (st : comment_state) : Prop :=
  comments_ok (cs_comments st) /\ Forall (fun l => l <> "") (cs_buffer st).

(* ===================================================================== *)
(** ** Sample inputs *)

(** A line of a T-stick log: the stamp in brackets, an ISO stamp and 16
    times the same reading. *)
Definition tstick_line (stamp value : string) : string :=
  "[" +:+ stamp +:+ "] 2025-07-28T10:00:00 "
      +:+ String.concat " " (repeat value 16) +:+ nl.

(** Two readings out of order, a line that is no reading, and the stamp
    10:00:03 twice. *)
Definition sample_tstick_log : file :=
  ("T_Stick_2025_07.log",
   [tstick_line "2025-07-28 10:00:02.000" "-1.25";
    tstick_line "2025-07-28 10:00:01.000" "-1.50";
    "restart" +:+ nl;
    tstick_line "2025-07-28 10:00:03.000" "-1.75";
    tstick_line "2025-07-28 10:00:03.000" "-2.00"]).

(** Two CTD readings, the later one first. *)
Definition sample_sbe_log : file :=
  ("SBE37.log",
   ["[2025-07-27 22:16:05.000] # -1.5010, 2.7, 33.10, 1440.20, 0" +:+ nl;
    "[2025-07-27 22:16:02.000] # -1.5020, 2.7, 33.20, 1440.30, 0" +:+ nl]).

(** A density file: the header of 2025-06-01 and one row at Julian
    time 1.5. *)
Definition sample_cnv : file :=
  ("probe.cnv",
   ["# start_time = 2025-06-01 [Instrument's time stamp, header]" +:+ nl;
    "*END*" +:+ nl;
    "  33.3000  -1.4000  100.0  1.5  1441.0  1026.5  0.0" +:+ nl]).

(** A density file that ends at its marker. *)
Definition sample_cnv_no_rows : file :=
  ("probe.cnv",
   ["# start_time = 2025-06-01 [Instrument's time stamp, header]" +:+ nl;
    "*END*" +:+ nl]).

(** The test file of the specification: start at 07/28/2025 00:00:00 and
    the rows (0.0, 1.0), (1.0, 5.0), (2.0, 2.0). *)
Definition sample_test_lines : list string :=
  ["Start time: 07/28/2025 00:00:00.000000" +:+ nl;
   "Data1" +:+ nl;
   "Time" +:+ String "009" "Force" +:+ nl;
   "0.0" +:+ String "009" "1.0" +:+ nl;
   "1.0" +:+ String "009" "5.0" +:+ nl;
   "2.0" +:+ String "009" "2.0" +:+ nl].
Definition sample_test_file : file := ("Test02_a.txt", sample_test_lines).

(** A flexible date parser that reads ISO dates. *)
Definition iso_dates (s : string) : option Z := DT.to_datetime s "%Y-%m-%d".

Definition sample_reference_time : Z := DT.datetime 2025 7 28 0 0 0.

(** A folder with the three streams and one test. *)
Definition sample_folder : folder :=
  mkFolder "exp1" [sample_tstick_log; sample_cnv; sample_test_file; sample_sbe_log].

(** The same folder, its density file without rows. *)
Definition sample_folder_no_density_rows : folder :=
  mkFolder "exp1"
           [sample_tstick_log; sample_cnv_no_rows; sample_test_file; sample_sbe_log].

(** The same folder without a density file. *)
Definition sample_folder_no_density : folder :=
  mkFolder "exp1" [sample_tstick_log; sample_test_file; sample_sbe_log].

(** The same folder without a T-stick log. *)
Definition sample_folder_no_tstick : folder :=
  mkFolder "exp1" [sample_cnv; sample_test_file; sample_sbe_log].

(** The tables the three parsers read from [sample_folder]. *)
Definition sample_sbe_dataset : sbe_dataset :=
  [mkSbeRow (DT.datetime 2025 7 27 22 16 5) (-1501 # 1000) (331 # 10) (7201 # 5);
   mkSbeRow (DT.datetime 2025 7 27 22 16 2) (-751 # 500) (166 # 5) (14403 # 10)].

Definition sample_density_dataset : density_dataset :=
  [mkDensityRow (DT.datetime 2025 1 1 12 0 0)
                (333 # 10) (-7 # 5) 100 1441 (2053 # 2) 0].

Definition sample_tstick_dataset : tstick_dataset :=
  mkTstickDataset
    [mkTstickRow (Some (DT.datetime 2025 7 28 10 0 1)) (repeat (Some (-3 # 2)%Q) 16);
     mkTstickRow (Some (DT.datetime 2025 7 28 10 0 2)) (repeat (Some (-5 # 4)%Q) 16)]
    z_coordinate.

(** A comment file: a line before the first header, a block for
    [Test02_a.txt] and a header without text. *)
Definition sample_comment_lines : list string :=
  ["stray" +:+ nl;
   "# Test02_a.txt" +:+ nl;
   "first crack at 12 s" +:+ nl;
   nl;
   "  sample broke in two  " +:+ nl;
   "# Test02_b.txt" +:+ nl].

(** The summary row of [sample_folder]. *)
Definition sample_row : gmap string pyval :=
  <["experiment_folder" := VStr "exp1"]>
    (row_data_of sample_test_file (DT.datetime 2025 7 27 22 16 1)
       (list_to_map
          [("ctd_time", VStr "2025-01-01 12:00:00.");
           ("ctd_T", VFloat (Some (-7 # 5)));
           ("ctd_S", VFloat (Some (333 # 10)));
           ("ctd_SV", VFloat (Some 1441%Q));
           ("ctd_rho", VFloat (Some (2053 # 2)));
           ("tstick_time", VStr "2025-07-28 10:00:01.");
           ("tstick_profile",
            VStr (Str.join ";" (repeat "-1.500" 16)))])).

(** A second folder, and a base directory with both, a hidden folder and
    a plain file. *)
Definition sample_folder2 : folder :=
  mkFolder "exp0" [sample_tstick_log; sample_cnv; sample_test_file; sample_sbe_log].

Definition sample_base : list entry :=
  [EntryDir sample_folder; EntryFile "ALL_EXPERIMENTS_SUMMARY.csv";
   EntryDir (mkFolder ".git" []); EntryDir sample_folder2].

(* ===================================================================== *)
(** * Properties *)

(** ** The reductions of numpy *)

Lemma argmin_from_spec (l : list (option Z)) :
  forall (pre : list Z) (best : Z) (bi : nat),
    Forall is_Some l ->
    Np.first_argmin pre bi -> pre !! bi = Some best ->
    exists keys, l = Some <$> keys /\
      Np.first_argmin (pre ++ keys) (Np.argmin_from best bi (length pre) l).
Proof.
  induction l as [|[x|] l IH]; intros pre best bi Hall Hbi Hbest.
  - exists []. split; [done|]. by rewrite app_nil_r.
  - apply Forall_cons in Hall as [_ Hall]. simpl.
    destruct (Z.ltb_spec x best) as [Hlt|Hge].
    + destruct (IH (pre ++ [x]) x (length pre)) as (keys & -> & Hk); [done| | |].
      * exists x. split; [by rewrite lookup_app_r, Nat.sub_diag|].
        destruct Hbi as (m & Hm & Hle & _).
        assert (m = best) as -> by congruence.
        split; intros j y.
        -- intros Hj. destruct (decide (j < length pre)%nat).
           ++ rewrite lookup_app_l in Hj by done. specialize (Hle _ _ Hj). lia.
           ++ rewrite lookup_app_r in Hj by lia.
              destruct (j - length pre)%nat; simplify_eq/=; lia.
        -- intros Hjl Hj. rewrite lookup_app_l in Hj by done.
           specialize (Hle _ _ Hj). lia.
      * by rewrite lookup_app_r, Nat.sub_diag.
      * exists (x :: keys). split; [done|].
        rewrite length_app in Hk. simpl in Hk.
        replace (length pre + 1)%nat with (S (length pre)) in Hk by lia.
        by rewrite <- app_assoc in Hk.
    + destruct (IH (pre ++ [x]) best bi) as (keys & -> & Hk); [done| | |].
      * destruct Hbi as (m & Hm & Hle & Hlt).
        assert (m = best) as -> by congruence.
        assert (bi < length pre)%nat by (by eapply lookup_lt_Some).
        exists best. split; [by rewrite lookup_app_l|].
        split; intros j y.
        -- intros Hj. destruct (decide (j < length pre)%nat).
           ++ rewrite lookup_app_l in Hj by done. eauto.
           ++ rewrite lookup_app_r in Hj by lia.
              destruct (j - length pre)%nat; simplify_eq/=; lia.
        -- intros Hjl Hj. rewrite lookup_app_l in Hj by lia. eauto.
      * assert (bi < length pre)%nat by (by eapply lookup_lt_Some).
        by rewrite lookup_app_l.
      * exists (x :: keys). split; [done|].
        rewrite length_app in Hk. simpl in Hk.
        replace (length pre + 1)%nat with (S (length pre)) in Hk by lia.
        by rewrite <- app_assoc in Hk.
  - apply Forall_cons in Hall as [[? ?] _]. done.
Qed.

Lemma argmin_spec (keys : list Z) :
  keys <> [] ->
  exists i, Np.argmin (Some <$> keys) = Ok i /\ Np.first_argmin keys i.
Proof.
  destruct keys as [|x keys]; [done|intros _]. simpl.
  destruct (argmin_from_spec (Some <$> keys) [x] x 0%nat) as (keys' & Heq & Hk).
  - apply Forall_fmap, Forall_forall. intros ? _. by eexists.
  - exists x. split; [done|]. split; intros j y; [|lia].
    destruct j; simpl; [|done]. intros [= ->]. lia.
  - done.
  - apply (inj (fmap Some)) in Heq as <-. eauto.
Qed.

Lemma abs_diff_values {A : Type} (time : A -> Z) (target : Z) (ds : list A) :
  Np.abs_diff target ((fun r => Some (time r)) <$> ds)
  = Some <$> ((fun r => Z.abs (time r - target)) <$> ds).
Proof. unfold Np.abs_diff. by rewrite <- !list_fmap_compose. Qed.

(** The index the three locators share: on a table with a row and no
    NaT, [np.argmin] of the distances succeeds with the first least one. *)
Lemma closest_idx_spec {A : Type} (time : A -> Z) (target : Z) (ds : list A) :
  ds <> [] ->
  exists i r, ds !! i = Some r /\
    Np.argmin (Np.abs_diff target ((fun r => Some (time r)) <$> ds)) = Ok i /\
    Np.first_argmin ((fun r => Z.abs (time r - target)) <$> ds) i.
Proof.
  intros Hne. rewrite abs_diff_values.
  destruct (argmin_spec ((fun r => Z.abs (time r - target)) <$> ds))
    as (i & Hi & Hmin).
  { by destruct ds. }
  pose proof Hmin as (m & Hm & _).
  apply list_lookup_fmap_Some in Hm as (r & _ & Hr).
  exists i, r. by repeat split.
Qed.

(** ** The nearest-timestamp locator *)

(** C1. On a table with at least one row, each of the three locators
    returns the row at the first index where the absolute difference
    between the row's timestamp and the target is least: no row is
    nearer, and every earlier row is strictly farther. For the
    temperature-stick table the timestamps are instants (no NaT). *)
Theorem locator_returns_first_nearest (target : Z) :
  (forall ds : sbe_dataset, ds <> [] ->
     exists i r, ds !! i = Some r /\
       find_closest_timestamp (Some ds) target
         = Ok (sbe_datetime r, sbe_T_deg r, sbe_Sal r, sbe_SV r) /\
       Np.first_argmin ((fun r => Z.abs (sbe_datetime r - target)) <$> ds) i) /\
  (forall ds : density_dataset, ds <> [] ->
     exists i r, ds !! i = Some r /\
       find_closest_density (Some ds) target
         = Ok (den_datetime r, den_Temperature r, den_Salinity r,
               den_SoundVelocity r, den_Density r) /\
       Np.first_argmin ((fun r => Z.abs (den_datetime r - target)) <$> ds) i) /\
  (forall (ds : tstick_dataset) (times : list Z),
     ts_rows ds <> [] ->
     ts_datetime <$> ts_rows ds = Some <$> times ->
     exists i r t, ts_rows ds !! i = Some r /\ ts_datetime r = Some t /\
       find_closest_tstick (Some ds) target = Ok (Some (Some t), Some (ts_T r)) /\
       Np.first_argmin ((fun t => Z.abs (t - target)) <$> times) i).
Proof.
  split; [|split].
  - intros ds Hne.
    destruct (closest_idx_spec sbe_datetime target ds Hne) as (i & r & Hr & Hi & Hmin).
    exists i, r. split; [done|]. split; [|done].
    unfold find_closest_timestamp, sbe_datetime_values. rewrite Hi. simpl.
    unfold Np.item. by rewrite Hr.
  - intros ds Hne.
    destruct (closest_idx_spec den_datetime target ds Hne) as (i & r & Hr & Hi & Hmin).
    exists i, r. split; [done|]. split; [|done].
    unfold find_closest_density, density_datetime_values. rewrite Hi. simpl.
    unfold Np.item. by rewrite Hr.
  - intros ds times Hne Htimes.
    assert (times <> []) as Hne'.
    { intros ->. by destruct (ts_rows ds). }
    destruct (closest_idx_spec id target times Hne') as (i & t & Ht & Hi & Hmin).
    change (Np.first_argmin ((fun t => Z.abs (t - target)) <$> times) i) in Hmin.
    assert ((ts_datetime <$> ts_rows ds) !! i = Some (Some t)) as Hrow.
    { by rewrite Htimes, list_lookup_fmap, Ht. }
    apply list_lookup_fmap_Some in Hrow as (r & Hrt & Hr).
    exists i, r, t. split; [done|]. split; [done|]. split; [|done].
    unfold find_closest_tstick. rewrite Htimes.
    change (Some <$> times) with ((fun r : Z => Some (id r)) <$> times).
    rewrite Hi. simpl. unfold Np.item. rewrite Hr. simpl. by rewrite <- Hrt.
Qed.

(** A tie at 15 between the rows at 10 and 20: the row at 10 wins. *)
Lemma locator_returns_first_nearest_witness :
  (exists i r, [mkSbeRow 10 1 2 3; mkSbeRow 20 4 5 6] !! i = Some r /\
     find_closest_timestamp (Some [mkSbeRow 10 1 2 3; mkSbeRow 20 4 5 6]) 15
       = Ok (sbe_datetime r, sbe_T_deg r, sbe_Sal r, sbe_SV r) /\
     Np.first_argmin
       ((fun r => Z.abs (sbe_datetime r - 15))
          <$> [mkSbeRow 10 1 2 3; mkSbeRow 20 4 5 6]) i) /\
  (exists i r,
     [mkDensityRow 10 1 2 3 4 5 6; mkDensityRow 20 7 8 9 10 11 12] !! i = Some r /\
     find_closest_density
       (Some [mkDensityRow 10 1 2 3 4 5 6; mkDensityRow 20 7 8 9 10 11 12]) 15
       = Ok (den_datetime r, den_Temperature r, den_Salinity r,
             den_SoundVelocity r, den_Density r) /\
     Np.first_argmin
       ((fun r => Z.abs (den_datetime r - 15))
          <$> [mkDensityRow 10 1 2 3 4 5 6; mkDensityRow 20 7 8 9 10 11 12]) i) /\
  (exists i r t,
     [mkTstickRow (Some 10) [Some 1%Q]; mkTstickRow (Some 20) [None]] !! i = Some r /\
     ts_datetime r = Some t /\
     find_closest_tstick
       (Some (mkTstickDataset
                [mkTstickRow (Some 10) [Some 1%Q]; mkTstickRow (Some 20) [None]]
                z_coordinate)) 15
       = Ok (Some (Some t), Some (ts_T r)) /\
     Np.first_argmin ((fun t => Z.abs (t - 15)) <$> [10; 20]) i).
Proof.
  destruct (locator_returns_first_nearest 15) as (Hsbe & Hden & Hts).
  split; [|split].
  - apply Hsbe. done.
  - apply Hden. done.
  - apply (Hts (mkTstickDataset
                  [mkTstickRow (Some 10) [Some 1%Q]; mkTstickRow (Some 20) [None]]
                  z_coordinate) [10; 20]); [done|reflexivity].
Defined.

(** C7. On a table with zero rows each locator raises: [np.argmin] of
    the empty array of distances is a [ValueError] (the failure the
    specification names EmptyTable), and no value is returned. *)
Theorem locator_empty_table_raises (target : Z) (z : list Q) :
  find_closest_timestamp (Some []) target = Raise ValueError /\
  find_closest_density (Some []) target = Raise ValueError /\
  find_closest_tstick (Some (mkTstickDataset [] z)) target = Raise ValueError.
Proof. done. Qed.

(** C10. With [None] for the dataset, [find_closest_tstick] returns the
    pair [(None, None)]; the other two locators raise, [None] having no
    ['datetime'] entry. *)
Theorem find_closest_tstick_absent (target : Z) :
  find_closest_tstick None target = Ok (None, None) /\
  find_closest_timestamp None target = Raise TypeError /\
  find_closest_density None target = Raise TypeError.
Proof. done. Qed.

(* ===================================================================== *)
(** ** The temperature-stick parser *)

Lemma read_tstick_data_Ok (dir : list file) (pattern : string) (rate : Z)
    (ds : tstick_dataset) :
  read_tstick_data dir pattern rate = Ok ds ->
  ds = mkTstickDataset
         (drop_duplicates_first []
            (sort_values
               (drop_all_duplicated
                  (tstick_frame (tstick_valid_data (sorted_glob dir pattern))))))
         z_coordinate.
Proof.
  unfold read_tstick_data.
  destruct (tstick_valid_data (sorted_glob dir pattern)) as [|line valid]; [done|].
  case_decide; [|done]. by intros [= <-].
Qed.

(** C9. Whenever the temperature-stick parser returns a dataset, its
    [z] coordinate has 16 points, the i-th being 0.02 * i - 0.07, and
    the dataset is the same for every [downsample_rate]. *)
Theorem tstick_depth_coordinate_fixed (dir : list file) (pattern : string)
    (rate : Z) (ds : tstick_dataset) :
  read_tstick_data dir pattern rate = Ok ds ->
  length (ts_z ds) = 16%nat /\
  (forall (i : nat) (z : Q),
     ts_z ds !! i = Some z ->
     (z == (2 # 100) * inject_Z (Z.of_nat i) - (7 # 100))%Q) /\
  (forall rate' : Z, read_tstick_data dir pattern rate' = Ok ds).
Proof.
  intros Hds. split; [|split].
  - apply read_tstick_data_Ok in Hds as ->. reflexivity.
  - apply read_tstick_data_Ok in Hds as ->. simpl. intros i z Hz.
    unfold z_coordinate in Hz.
    apply list_lookup_fmap_Some in Hz as (k & -> & Hk).
    apply lookup_seq in Hk as [-> _]. simpl. ring.
  - intros rate'. exact Hds.
Qed.

Lemma sample_tstick_run (rate : Z) :
  read_tstick_data (folder_files sample_folder) "T_Stick_2025*.log" rate
  = Ok sample_tstick_dataset.
Proof. vm_compute. reflexivity. Qed.

Lemma tstick_depth_coordinate_fixed_witness :
  length (ts_z sample_tstick_dataset) = 16%nat /\
  read_tstick_data (folder_files sample_folder) "T_Stick_2025*.log" 1
  = Ok sample_tstick_dataset.
Proof.
  destruct (tstick_depth_coordinate_fixed _ _ _ _ (sample_tstick_run 10))
    as (Hlen & _ & Hrate).
  split; [exact Hlen|exact (Hrate 1)].
Defined.

(** *** Sorting and duplicates *)

#[local] Instance datetime_le_trans : Transitive datetime_le.
Proof. intros [x|] [y|] [z|]; simpl; try done. lia. Qed.
#[local] Instance datetime_le_total : Total datetime_le.
Proof. intros [x|] [y|]; simpl; auto. lia. Qed.
#[local] Instance row_le_trans : Transitive row_le.
Proof. intros r1 r2 r3. unfold row_le. apply datetime_le_trans. Qed.
#[local] Instance row_le_total : Total row_le.
Proof. intros r1 r2. unfold row_le. apply datetime_le_total. Qed.

Lemma datetime_le_lt (a b : option Z) :
  datetime_le a b -> a <> b -> datetime_lt a b.
Proof.
  destruct a as [x|], b as [y|]; simpl; try done.
  intros Hle Hne. assert (x <> y) by congruence. lia.
Qed.

Lemma count_datetime_cons (t : option Z) (r : tstick_row) (rows : list tstick_row) :
  count_datetime t (r :: rows)
  = ((if decide (ts_datetime r = t) then 1 else 0) + count_datetime t rows)%nat.
Proof.
  unfold count_datetime. rewrite filter_cons. by case_decide.
Qed.

Lemma count_datetime_elem (r : tstick_row) (rows : list tstick_row) :
  r ∈ rows -> (1 <= count_datetime (ts_datetime r) rows)%nat.
Proof.
  induction 1 as [r rows|r r' rows _ IH]; rewrite count_datetime_cons.
  - rewrite decide_True by done. lia.
  - lia.
Qed.

Lemma count_datetime_pos (t : option Z) (rows : list tstick_row) :
  (1 <= count_datetime t rows)%nat -> t ∈ ts_datetime <$> rows.
Proof.
  induction rows as [|r rows IH]; [unfold count_datetime; simpl; lia|].
  rewrite count_datetime_cons, fmap_cons. case_decide as Heq.
  - intros _. rewrite <- Heq. left.
  - intros Hk. right. apply IH. lia.
Qed.

Lemma count_datetime_sublist (t : option Z) (l all : list tstick_row) :
  l `sublist_of` all -> (count_datetime t l <= count_datetime t all)%nat.
Proof.
  induction 1 as [|r l all _ IH|r l all _ IH]; [done|..];
    rewrite ?count_datetime_cons; lia.
Qed.

(** Rows taken from [all], each with a timestamp that occurs once in
    [all], have pairwise different timestamps. *)
Lemma once_NoDup (all l : list tstick_row) :
  l `sublist_of` all ->
  (forall r, r ∈ l -> count_datetime (ts_datetime r) all = 1%nat) ->
  NoDup (ts_datetime <$> l).
Proof.
  induction l as [|r l IH]; intros Hsub Honce; [constructor|].
  rewrite fmap_cons. apply NoDup_cons. split.
  - intros Hin. apply list_elem_of_fmap in Hin as (r' & Heq & Hr').
    pose proof (count_datetime_sublist (ts_datetime r) _ _ Hsub) as Hle.
    rewrite count_datetime_cons, decide_True in Hle by done.
    pose proof (count_datetime_elem r' l Hr') as Hge. rewrite <- Heq in Hge.
    rewrite (Honce r) in Hle by left. lia.
  - apply IH.
    + etrans; [|exact Hsub]. by apply sublist_cons.
    + intros r' Hr'. apply Honce. by right.
Qed.

Lemma drop_all_duplicated_NoDup (rows : list tstick_row) :
  NoDup (ts_datetime <$> drop_all_duplicated rows).
Proof.
  apply (once_NoDup rows).
  - apply sublist_filter.
  - intros r Hr. by apply list_elem_of_filter in Hr as [? _].
Qed.

Lemma drop_all_duplicated_elem (t : option Z) (rows : list tstick_row) :
  t ∈ ts_datetime <$> drop_all_duplicated rows <-> count_datetime t rows = 1%nat.
Proof.
  split.
  - intros Hin. apply list_elem_of_fmap in Hin as (r & -> & Hr).
    by apply list_elem_of_filter in Hr as [? _].
  - intros Hone.
    assert (t ∈ ts_datetime <$> rows) as Hin by (apply count_datetime_pos; lia).
    apply list_elem_of_fmap in Hin as (r & -> & Hr).
    apply list_elem_of_fmap. exists r. split; [done|].
    by apply list_elem_of_filter.
Qed.

Lemma sorted_NoDup_strict (rows : list tstick_row) :
  StronglySorted row_le rows -> NoDup (ts_datetime <$> rows) ->
  StronglySorted datetime_lt (ts_datetime <$> rows).
Proof.
  induction 1 as [|r rows Hs IH Hall]; [constructor|].
  rewrite fmap_cons. intros [Hnin Hnd]%NoDup_cons.
  constructor; [by apply IH|].
  apply Forall_fmap, Forall_forall. intros r' Hr'. simpl.
  apply datetime_le_lt.
  - rewrite Forall_forall in Hall. by apply Hall.
  - intros Heq. apply Hnin. rewrite Heq. apply list_elem_of_fmap. eauto.
Qed.

Lemma drop_duplicates_first_NoDup (rows : list tstick_row) :
  forall seen : list (option Z),
    NoDup (ts_datetime <$> rows) ->
    (forall t, t ∈ seen -> t ∉ ts_datetime <$> rows) ->
    drop_duplicates_first seen rows = rows.
Proof.
  induction rows as [|r rows IH]; intros seen Hnd Hseen; [done|].
  rewrite fmap_cons in Hnd, Hseen. apply NoDup_cons in Hnd as [Hnin Hnd].
  simpl. rewrite decide_False.
  - f_equal. apply IH; [done|].
    intros t [->|Ht]%elem_of_cons; [done|].
    intros Hin. apply (Hseen t Ht). by right.
  - intros Hin. apply (Hseen _ Hin). left.
Qed.

(** What [read_tstick_data] returns: the frame without the rows of a
    repeated timestamp, sorted. *)
Lemma read_tstick_data_rows (dir : list file) (pattern : string) (rate : Z)
    (ds : tstick_dataset) :
  read_tstick_data dir pattern rate = Ok ds ->
  ts_rows ds
  = sort_values
      (drop_all_duplicated
         (tstick_frame (tstick_valid_data (sorted_glob dir pattern)))) /\
  NoDup (ts_datetime <$> ts_rows ds).
Proof.
  intros ->%read_tstick_data_Ok. simpl.
  set (rows := drop_all_duplicated _).
  assert (NoDup (ts_datetime <$> sort_values rows)) as Hnd.
  { unfold sort_values. rewrite merge_sort_Permutation.
    apply drop_all_duplicated_NoDup. }
  rewrite drop_duplicates_first_NoDup; [done|done|]. intros t Ht. inv Ht.
Qed.

(* ===================================================================== *)
(** ** The CTD and density parsers *)

Lemma flat_map_flat_map {A B C : Type} (f : A -> list B) (g : B -> list C)
    (l : list A) :
  flat_map g (flat_map f l) = flat_map (fun x => flat_map g (f x)) l.
Proof.
  induction l as [|x l IH]; [done|]. simpl. by rewrite flat_map_app, IH.
Qed.

Lemma read_sbe_data_Ok (dir : list file) (pattern : string) (ds : sbe_dataset) :
  read_sbe_data dir pattern = Ok (Some ds) ->
  ds <> [] /\ ds = sbe_rows (sorted_glob dir pattern).
Proof.
  unfold read_sbe_data. destruct (sbe_rows _) as [|r rows]; [done|].
  by intros [= <-].
Qed.

Lemma read_sbe_data_total (dir : list file) (pattern : string) :
  exists ds, read_sbe_data dir pattern = Ok ds.
Proof. unfold read_sbe_data. destruct (sbe_rows _); eauto. Qed.

Section DensityLoop.

Variable pd_to_datetime : string -> option Z.

Lemma density_file_Ok (st st' : list (list Q) * Z) (f : file) :
  density_file pd_to_datetime st f = Ok st' ->
  st' = (st.1 ++ density_file_rows f, header_year pd_to_datetime f.2).
Proof.
  unfold density_file, density_file_rows.
  destruct (find_end_index f.2) as [i|]; [|done]. simpl. by intros [= <-].
Qed.

Lemma for_each_density_file (files : list file) :
  forall (data0 data : list (list Q)) (year0 year : Z),
    for_each (density_file pd_to_datetime) files (data0, year0) = Ok (data, year) ->
    data = data0 ++ flat_map density_file_rows files /\
    year = default year0 ((fun f : file => header_year pd_to_datetime f.2) <$> last files).
Proof.
  induction files as [|f files IH]; intros data0 data year0 year.
  - simpl. intros [= <- <-]. by rewrite app_nil_r.
  - simpl. destruct (density_file pd_to_datetime (data0, year0) f) as [st'|e] eqn:Hf;
      [|done].
    apply density_file_Ok in Hf as ->. simpl.
    intros [-> ->]%IH. split; [by rewrite app_assoc|].
    destruct files as [|f' files]; [done|].
    change (last (f :: f' :: files)) with (last (f' :: files)).
    destruct (last (f' :: files)) eqn:Hlast; [done|].
    by apply last_None in Hlast.
Qed.

(** What [process_sbe37cnv_data] returns: the rows of the data sections
    in the order of the files, dated with the year of the last file. *)
Lemma process_sbe37cnv_data_Ok (dir : list file) (pattern : string)
    (ds : density_dataset) :
  process_sbe37cnv_data pd_to_datetime dir pattern = Ok ds ->
  exists (files : list file) (lastf : file),
    sorted_glob dir pattern = files ++ [lastf] /\
    ds <> [] /\
    ds = density_row_of (header_year pd_to_datetime lastf.2)
           <$> flat_map density_file_rows (files ++ [lastf]).
Proof.
  unfold process_sbe37cnv_data.
  destruct (sorted_glob dir pattern) as [|f fs] eqn:Hglob; [done|].
  destruct (for_each _ _ _) as [[data year]|e] eqn:Hloop; [|done].
  apply for_each_density_file in Hloop as [-> ->]. simpl.
  destruct (last (density_row_of _ <$> _)) as [r|] eqn:Hlast; [|done].
  intros [= <-].
  destruct (exists_last (l := f :: fs)) as (files & lastf & Heq); [done|].
  assert (last (f :: fs) = Some lastf) as Hl by (rewrite Heq; apply last_snoc).
  exists files, lastf. rewrite <- Heq. split; [done|].
  rewrite Hl in Hlast |- *. simpl in Hlast |- *. split; [|done].
  intros Hnil. by rewrite Hnil in Hlast.
Qed.

End DensityLoop.

Lemma sample_sbe_run :
  read_sbe_data (folder_files sample_folder) "SBE*.log" = Ok (Some sample_sbe_dataset).
Proof. vm_compute. reflexivity. Qed.

Lemma sample_density_run :
  process_sbe37cnv_data iso_dates (folder_files sample_folder) "*.cnv"
  = Ok sample_density_dataset.
Proof. vm_compute. reflexivity. Qed.

(* ===================================================================== *)
(** ** Order and duplicates of the tables *)

(** C4 (amended). The table of the temperature-stick parser has strictly
    increasing timestamps (in the order of the sort, NaT last): it holds
    exactly the timestamps that occur once among the valid lines, every
    row of a repeated timestamp being removed, sorted ascending. The
    tables of the CTD and density parsers hold the rows of the accepted
    lines in the order of the files and of their lines, neither sorted
    nor deduplicated. *)
Theorem tstick_table_strictly_increasing (pd_to_datetime : string -> option Z)
    (dir : list file) (pattern : string) :
  (forall (rate : Z) (ds : tstick_dataset),
     read_tstick_data dir pattern rate = Ok ds ->
     StronglySorted datetime_lt (ts_datetime <$> ts_rows ds) /\
     (forall t : option Z,
        t ∈ ts_datetime <$> ts_rows ds <->
        count_datetime t (tstick_frame (tstick_valid_data (sorted_glob dir pattern)))
        = 1%nat)) /\
  (forall ds : sbe_dataset,
     read_sbe_data dir pattern = Ok (Some ds) ->
     ds = flat_map sbe_line_rows
            (flat_map (fun f : file => filter (fun l => is_valid_datetime l = true) f.2)
                      (sorted_glob dir pattern))) /\
  (forall ds : density_dataset,
     process_sbe37cnv_data pd_to_datetime dir pattern = Ok ds ->
     exists year : Z,
       ds = density_row_of year <$> flat_map density_file_rows (sorted_glob dir pattern)).
Proof.
  split; [|split].
  - intros rate ds Hds.
    destruct (read_tstick_data_rows _ _ _ _ Hds) as [Hrows Hnd]. split.
    + apply sorted_NoDup_strict; [|done]. rewrite Hrows.
      apply (StronglySorted_merge_sort row_le).
    + intros t. rewrite Hrows. unfold sort_values.
      rewrite merge_sort_Permutation. apply drop_all_duplicated_elem.
  - intros ds [_ ->]%read_sbe_data_Ok. unfold sbe_rows, sbe_file_rows.
    by rewrite flat_map_flat_map.
  - intros ds (files & lastf & -> & _ & ->)%process_sbe37cnv_data_Ok. eauto.
Qed.

Lemma tstick_table_strictly_increasing_witness :
  StronglySorted datetime_lt (ts_datetime <$> ts_rows sample_tstick_dataset) /\
  sample_sbe_dataset
  = flat_map sbe_line_rows
      (flat_map (fun f : file => filter (fun l => is_valid_datetime l = true) f.2)
                (sorted_glob [sample_sbe_log] "SBE*.log")).
Proof.
  split.
  - destruct (tstick_table_strictly_increasing iso_dates
                (folder_files sample_folder) "T_Stick_2025*.log") as (Hts & _ & _).
    exact (proj1 (Hts 10 sample_tstick_dataset (sample_tstick_run 10))).
  - destruct (tstick_table_strictly_increasing iso_dates
                [sample_sbe_log] "SBE*.log") as (_ & Hsbe & _).
    apply Hsbe. vm_compute. reflexivity.
Defined.

(** C4, as stated, fails: the CTD table of [sample_sbe_log] is in the
    order of the lines, the later reading first; and of the stamp
    10:00:03, which two valid lines of [sample_tstick_log] carry, the
    temperature-stick table keeps no row, not the first. *)
Lemma tables_not_sorted_first_kept :
  (exists ds : sbe_dataset,
     read_sbe_data [sample_sbe_log] "SBE*.log" = Ok (Some ds) /\
     ~ StronglySorted Z.lt (sbe_datetime <$> ds)) /\
  (exists ds : tstick_dataset,
     read_tstick_data [sample_tstick_log] "T_Stick_2025*.log" 10 = Ok ds /\
     count_datetime (Some (DT.datetime 2025 7 28 10 0 3))
       (tstick_frame (tstick_valid_data [sample_tstick_log])) = 2%nat /\
     Some (DT.datetime 2025 7 28 10 0 3) ∉ ts_datetime <$> ts_rows ds).
Proof.
  split.
  - exists sample_sbe_dataset. split; [vm_compute; reflexivity|].
    intros Hs. apply StronglySorted_cons in Hs as [Hall _].
    apply Forall_cons in Hall as [Hlt _]. vm_compute in Hlt. discriminate Hlt.
  - exists sample_tstick_dataset. split; [vm_compute; reflexivity|].
    split; [vm_compute; reflexivity|].
    intros Hin. simpl in Hin.
    repeat (apply elem_of_cons in Hin as [Hin|Hin]; [vm_compute in Hin; discriminate Hin|]).
    by apply elem_of_nil in Hin.
Qed.

(* ===================================================================== *)
(** ** Julian time of the density parser *)

Lemma density_line_rows_width (line : string) (row : list Q) :
  row ∈ density_line_rows line -> length row = 7%nat.
Proof.
  unfold density_line_rows.
  destruct (Nat.leb_spec 7 (length (Str.split_ws line))) as [Hle|Hlt];
    [|by intros ?%elem_of_nil].
  unfold floats. destruct (mapM _ _) as [row'|] eqn:Hm; [|by intros ?%elem_of_nil].
  intros ->%list_elem_of_singleton.
  apply length_mapM in Hm. rewrite <- Hm, length_take. lia.
Qed.

Lemma density_file_rows_width (f : file) (row : list Q) :
  row ∈ density_file_rows f -> length row = 7%nat.
Proof.
  unfold density_file_rows. destruct (find_end_index f.2); [|by intros ?%elem_of_nil].
  intros (line & _ & Hrow)%list_elem_of_In%in_flat_map.
  by eapply density_line_rows_width, list_elem_of_In.
Qed.

(** The run on a single file. *)
Lemma process_sbe37cnv_data_single (pd_to_datetime : string -> option Z)
    (dir : list file) (pattern : string) (f : file) (i : nat) :
  sorted_glob dir pattern = [f] ->
  find_end_index f.2 = Some i ->
  process_sbe37cnv_data pd_to_datetime dir pattern
  = let ds := density_row_of (header_year pd_to_datetime f.2) <$> density_file_rows f in
    match last ds with
    | Some _ => Ok ds
    | None => Raise IndexError
    end.
Proof.
  intros Hglob Hend. unfold process_sbe37cnv_data, density_file_rows.
  rewrite Hglob. simpl. unfold density_file. rewrite Hend. simpl.
  by destruct (last _).
Qed.

Lemma header_year_start_time (pd_to_datetime : string -> option Z)
    (lines : list string) (line after : string) :
  find_start_time_line lines = Some line ->
  Str.split_char "=" line !! 1%nat = Some after ->
  header_year pd_to_datetime lines
  = match pd_to_datetime (Str.split_head " [" (Str.strip after)) with
    | Some start_dt => DT.f_year (DT.fields_of_instant start_dt)
    | None => 2025
    end.
Proof. intros Hline Hafter. unfold header_year. by rewrite Hline, Hafter. Qed.

Lemma sample_cnv_header_year (pd_to_datetime : string -> option Z) :
  header_year pd_to_datetime sample_cnv.2
  = match pd_to_datetime "2025-06-01" with
    | Some start_dt => DT.f_year (DT.fields_of_instant start_dt)
    | None => 2025
    end.
Proof.
  apply (header_year_start_time _ _
           ("# start_time = 2025-06-01 [Instrument's time stamp, header]" +:+ nl)
           (" 2025-06-01 [Instrument's time stamp, header]" +:+ nl));
    vm_compute; reflexivity.
Qed.

(** C5 (amended). Each row of the density table is dated at midnight of
    1 January of the header year plus (Julian time - 1) days; the header
    year is the year of the [# start_time = ...] line (of the last
    file), and 2025 when that line is missing or its date is not read.
    For the header [# start_time = 2025-06-01 [...]] and Julian time 1.5
    the timestamp is 2025-01-01 12:00:00. *)
Theorem density_julian_time (pd_to_datetime : string -> option Z) :
  (forall (dir : list file) (pattern : string) (ds : density_dataset),
     process_sbe37cnv_data pd_to_datetime dir pattern = Ok ds ->
     exists (files : list file) (lastf : file),
       sorted_glob dir pattern = files ++ [lastf] /\
       Forall2
         (fun (r : density_row) (row : list Q) =>
            exists julian : Q,
              row !! 3%nat = Some julian /\
              den_datetime r
              = DT.datetime (header_year pd_to_datetime lastf.2) 1 1 0 0 0
                + to_timedelta_D (julian - 1)%Q)
         ds (flat_map density_file_rows (files ++ [lastf]))) /\
  (forall lines : list string,
     find_start_time_line lines = None ->
     header_year pd_to_datetime lines = 2025) /\
  (forall (lines : list string) (line after : string),
     find_start_time_line lines = Some line ->
     Str.split_char "=" line !! 1%nat = Some after ->
     header_year pd_to_datetime lines
     = match pd_to_datetime (Str.split_head " [" (Str.strip after)) with
       | Some start_dt => DT.f_year (DT.fields_of_instant start_dt)
       | None => 2025
       end) /\
  (pd_to_datetime "2025-06-01" = Some (DT.datetime 2025 6 1 0 0 0) ->
   exists ds : density_dataset,
     process_sbe37cnv_data pd_to_datetime [sample_cnv] "*.cnv" = Ok ds /\
     den_datetime <$> ds = [DT.datetime 2025 1 1 12 0 0]).
Proof.
  split; [|split; [|split]].
  - intros dir pattern ds (files & lastf & Hglob & _ & ->)%process_sbe37cnv_data_Ok.
    exists files, lastf. split; [done|].
    apply Forall2_fmap_l, Forall_Forall2_diag, Forall_forall.
    intros row Hrow.
    apply list_elem_of_In, in_flat_map in Hrow as (f & _ & Hrow).
    apply list_elem_of_In, density_file_rows_width in Hrow.
    destruct row as [|x0 [|x1 [|x2 [|julian row]]]]; try done.
    exists julian. done.
  - intros lines Hnone. unfold header_year. by rewrite Hnone.
  - apply header_year_start_time.
  - intros Hpd. exists sample_density_dataset. split; [|reflexivity].
    rewrite (process_sbe37cnv_data_single _ _ _ sample_cnv 1%nat)
      by (vm_compute; reflexivity).
    rewrite sample_cnv_header_year, Hpd.
    vm_compute. reflexivity.
Qed.

Lemma density_julian_time_witness :
  header_year iso_dates [] = 2025 /\
  header_year iso_dates sample_cnv.2 = 2025 /\
  exists ds : density_dataset,
    process_sbe37cnv_data iso_dates [sample_cnv] "*.cnv" = Ok ds /\
    den_datetime <$> ds = [DT.datetime 2025 1 1 12 0 0].
Proof.
  destruct (density_julian_time iso_dates) as (_ & Hnone & Hsome & Hex).
  split; [|split].
  - apply Hnone. reflexivity.
  - rewrite (Hsome sample_cnv.2
               ("# start_time = 2025-06-01 [Instrument's time stamp, header]" +:+ nl)
               (" 2025-06-01 [Instrument's time stamp, header]" +:+ nl));
      vm_compute; reflexivity.
  - apply Hex. vm_compute. reflexivity.
Defined.

(** C5, as stated, fails on its example: with the header of 2025-06-01
    and Julian time 1.5 the timestamp is noon of 1 January, not of
    1 June. *)
Lemma density_example_is_january :
  exists ds : density_dataset,
    process_sbe37cnv_data iso_dates [sample_cnv] "*.cnv" = Ok ds /\
    den_datetime <$> ds = [DT.datetime 2025 1 1 12 0 0] /\
    den_datetime <$> ds <> [DT.datetime 2025 6 1 12 0 0].
Proof.
  exists sample_density_dataset. split; [vm_compute; reflexivity|].
  split; [reflexivity|]. vm_compute. discriminate.
Qed.


(* ===================================================================== *)
(** ** Patterns without files, files without rows *)

(** C3 (amended). When its pattern matches no file, or only files
    without a valid row, [read_sbe_data] returns [None] and raises
    nothing. [process_sbe37cnv_data] raises [FileNotFoundError] when no
    file matches, and [read_tstick_data] raises [ValueError] when no
    file matches or no line is valid; [_load_environmental_data] catches
    these two and records the stream as [None]. *)
Theorem absent_stream_results (pd_to_datetime : string -> option Z)
    (dir : list file) :
  (forall pattern : string,
     sbe_rows (sorted_glob dir pattern) = [] ->
     read_sbe_data dir pattern = Ok None) /\
  (forall pattern : string,
     sorted_glob dir pattern = [] ->
     process_sbe37cnv_data pd_to_datetime dir pattern = Raise FileNotFoundError) /\
  (forall (pattern : string) (rate : Z),
     tstick_valid_data (sorted_glob dir pattern) = [] ->
     read_tstick_data dir pattern rate = Raise ValueError) /\
  (forall name : string,
     sorted_glob dir "*.cnv" = [] ->
     tstick_valid_data (sorted_glob dir "T_Stick_2025*.log") = [] ->
     exists ds_sbe : option sbe_dataset,
       read_sbe_data dir "SBE*.log" = Ok ds_sbe /\
       _load_environmental_data pd_to_datetime (mkFolder name dir)
       = Env ds_sbe None None).
Proof.
  split; [|split; [|split]].
  - intros pattern Hrows. unfold read_sbe_data. by rewrite Hrows.
  - intros pattern Hglob. unfold process_sbe37cnv_data. by rewrite Hglob.
  - intros pattern rate Hvalid. unfold read_tstick_data. by rewrite Hvalid.
  - intros name Hcnv Hts.
    destruct (read_sbe_data_total dir "SBE*.log") as [ds_sbe Hsbe].
    exists ds_sbe. split; [done|].
    unfold _load_environmental_data, read_tstick_data, process_sbe37cnv_data.
    simpl. rewrite Hsbe, Hts, Hcnv. reflexivity.
Qed.

(** An empty folder. *)
Lemma absent_stream_results_witness :
  read_sbe_data [] "SBE*.log" = Ok None /\
  process_sbe37cnv_data iso_dates [] "*.cnv" = Raise FileNotFoundError /\
  read_tstick_data [] "T_Stick_2025*.log" 10 = Raise ValueError /\
  exists ds_sbe : option sbe_dataset,
    read_sbe_data [] "SBE*.log" = Ok ds_sbe /\
    _load_environmental_data iso_dates (mkFolder "exp0" []) = Env ds_sbe None None.
Proof.
  destruct (absent_stream_results iso_dates []) as (Hsbe & Hden & Hts & Hload).
  split; [|split; [|split]].
  - apply Hsbe. reflexivity.
  - apply Hden. reflexivity.
  - apply Hts. reflexivity.
  - apply Hload; reflexivity.
Defined.

(** C3, as stated, fails: on a pattern that matches no file the density
    parser and the temperature-stick parser raise, they return nothing. *)
Lemma empty_glob_raises :
  process_sbe37cnv_data iso_dates [] "*.cnv" = Raise FileNotFoundError /\
  read_tstick_data [] "T_Stick_2025*.log" 10 = Raise ValueError /\
  ~ (exists ds, process_sbe37cnv_data iso_dates [] "*.cnv" = Ok ds) /\
  ~ (exists ds, read_tstick_data [] "T_Stick_2025*.log" 10 = Ok ds).
Proof.
  split; [reflexivity|]. split; [reflexivity|].
  split; intros [ds Hds]; discriminate Hds.
Qed.

(* ===================================================================== *)
(** ** A density file without rows *)

(** C6 on [sample_folder_no_density_rows]. The CTD and temperature-stick
    logs load; the density file has its marker and no row, so the last
    timestamp that [process_sbe37cnv_data] prints does not exist and the
    [IndexError] passes the handler of the density stream: the loader
    returns the empty dictionary and the folder yields no row. With the
    row in the density file the same folder yields the row of its test. *)
Theorem density_without_rows_aborts_folder :
  read_sbe_data (folder_files sample_folder_no_density_rows) "SBE*.log"
  = Ok (Some sample_sbe_dataset) /\
  read_tstick_data (folder_files sample_folder_no_density_rows) "T_Stick_2025*.log" 10
  = Ok sample_tstick_dataset /\
  process_sbe37cnv_data iso_dates (folder_files sample_folder_no_density_rows) "*.cnv"
  = Raise IndexError /\
  _load_environmental_data iso_dates sample_folder_no_density_rows = EnvEmpty /\
  process_single_experiment iso_dates sample_reference_time
    sample_folder_no_density_rows = None /\
  _load_environmental_data iso_dates sample_folder
  = Env (Some sample_sbe_dataset) (Some sample_tstick_dataset)
        (Some sample_density_dataset) /\
  length <$> process_single_experiment iso_dates sample_reference_time sample_folder
  = Some 1%nat.
Proof. repeat split; vm_compute; reflexivity. Qed.

(* ===================================================================== *)
(** ** The mechanical-test parser and the peak force *)

Lemma argmax_from_spec (l : list Q) :
  forall (pre : list Q) (best : Q) (bi : nat),
    Np.first_argmax pre bi -> pre !! bi = Some best ->
    Np.first_argmax (pre ++ l) (Np.argmax_from best bi (length pre) l).
Proof.
  induction l as [|x l IH]; intros pre best bi Hbi Hbest.
  - by rewrite app_nil_r.
  - simpl. destruct Hbi as (m & Hm & Hle & Hlt).
    assert (m = best) as -> by congruence.
    assert (bi < length pre)%nat by (by eapply lookup_lt_Some).
    replace (pre ++ x :: l) with ((pre ++ [x]) ++ l) by (by rewrite <- app_assoc).
    replace (S (length pre)) with (length (pre ++ [x]))
      by (rewrite length_app; simpl; lia).
    destruct (Qle_bool x best) eqn:Hcmp.
    + apply Qle_bool_iff in Hcmp. apply IH; [|by rewrite lookup_app_l].
      exists best. split; [by rewrite lookup_app_l|].
      split; intros j y.
      * intros Hj. destruct (decide (j < length pre)%nat).
        -- rewrite lookup_app_l in Hj by done. eauto.
        -- rewrite lookup_app_r in Hj by lia.
           destruct (j - length pre)%nat; simplify_eq/=; done.
      * intros Hjl Hj. rewrite lookup_app_l in Hj by lia. eauto.
    + assert (best < x)%Q as Hgt.
      { apply Qnot_le_lt. intros Hle'. apply Qle_bool_iff in Hle'. congruence. }
      apply IH; [|by rewrite lookup_app_r, Nat.sub_diag].
      exists x. split; [by rewrite lookup_app_r, Nat.sub_diag|].
      split; intros j y.
      * intros Hj. destruct (decide (j < length pre)%nat).
        -- rewrite lookup_app_l in Hj by done. specialize (Hle _ _ Hj). lra.
        -- rewrite lookup_app_r in Hj by lia.
           destruct (j - length pre)%nat; simplify_eq/=; lra.
      * intros Hjl Hj. rewrite lookup_app_l in Hj by done.
        specialize (Hle _ _ Hj). lra.
Qed.

Lemma argmax_spec (forces : list Q) :
  forces <> [] ->
  exists i, Np.argmax forces = Ok i /\ Np.first_argmax forces i.
Proof.
  destruct forces as [|x forces]; [done|intros _]. simpl. eexists. split; [done|].
  apply (argmax_from_spec forces [x] x 0%nat); [|done].
  exists x. split; [done|]. split; intros j y; [|lia].
  destruct j; simpl; [|done]. intros [= ->]. lra.
Qed.

Lemma for_each_invariant {A S : Type} (P : S -> Prop) (f : S -> A -> result S)
    (xs : list A) :
  (forall s x s', P s -> f s x = Ok s' -> P s') ->
  forall s s', P s -> for_each f xs s = Ok s' -> P s'.
Proof.
  intros Hstep. induction xs as [|x xs IH]; intros s s' Hs; simpl.
  - by intros [= <-].
  - destruct (f s x) as [s1|e] eqn:Hf; [|done]. simpl. eauto.
Qed.

Lemma read_data_lengths (lines meta : list string) (times forces : list Q)
    (start : option Z) :
  read_data lines = Ok (meta, times, forces, start) ->
  length times = length forces.
Proof.
  unfold read_data.
  destruct (for_each read_line lines _) as [st|e] eqn:Hloop; [|done]. simpl.
  destruct (correct_start_time _) as [[meta' start']|e]; [|done]. simpl.
  intros [= _ <- <- _].
  revert Hloop.
  apply (for_each_invariant
           (fun st => length (rs_time_vals st) = length (rs_force_vals st)));
    [|done].
  intros s line s' Hs. unfold read_line.
  repeat case_match; try (intros [= <-]; simpl; done).
  destruct (Np.item _ 0) as [p0|]; [|done]. simpl.
  destruct (or_raise (Num.py_float p0) _) as [t|]; [|done]. simpl.
  destruct (Np.item _ 1) as [p1|]; [|done]. simpl.
  destruct (or_raise (Num.py_float p1) _) as [f|]; [|done]. simpl.
  intros [= <-]. simpl. rewrite !length_app. simpl. lia.
Qed.

(** The offsets become datetimes one by one. *)
Lemma time_data_dt_Ok (start : Z) (times : list Q) :
  Forall (fun t => DT.datetime_min <= start + DT.timedelta_seconds t <= DT.datetime_max)
         times ->
  forall acc : list Z,
    for_each (fun acc t =>
                let! start := or_raise (Some start) TypeError in
                let! dt := DT.datetime_add start (DT.timedelta_seconds t) in
                Ok (acc ++ [dt])) times acc
    = Ok (acc ++ ((fun t => start + DT.timedelta_seconds t) <$> times)).
Proof.
  induction 1 as [|t times [Hlo Hhi] _ IH]; intros acc; simpl.
  - by rewrite app_nil_r.
  - unfold DT.datetime_add.
    rewrite (proj2 (Z.leb_le _ _) Hlo), (proj2 (Z.leb_le _ _) Hhi). simpl.
    rewrite IH. by rewrite <- app_assoc.
Qed.

Lemma correct_start_time_first (pre rest : list string) (line time_str : string)
    (t : Z) :
  Forall (fun l => Str.startswith l "Start time:" = false) pre ->
  Str.startswith line "Start time:" = true ->
  Str.split_once ": " line !! 1%nat = Some time_str ->
  DT.strptime time_str "%m/%d/%Y %H:%M:%S.%f" = Some t ->
  DT.datetime_min <= t - DT.timedelta_hm 1 44 <= DT.datetime_max ->
  correct_start_time (pre ++ line :: rest)
  = Ok (pre ++ ("Start time (Corrected, UTC): "
                  +:+ DT.strftime (t - DT.timedelta_hm 1 44) "%m/%d/%Y %H:%M:%S")
               :: rest,
        Some (t - DT.timedelta_hm 1 44)).
Proof.
  intros Hpre Hline Hsplit Hparse [Hlo Hhi].
  induction Hpre as [|l pre Hl _ IH]; simpl.
  - rewrite Hline. unfold Np.item. rewrite Hsplit. simpl. rewrite Hparse. simpl.
    unfold DT.datetime_add.
    replace (t + - DT.timedelta_hm 1 44) with (t - DT.timedelta_hm 1 44) by lia.
    by rewrite (proj2 (Z.leb_le _ _) Hlo), (proj2 (Z.leb_le _ _) Hhi).
  - rewrite Hl, IH. reflexivity.
Qed.

(** C8. [correct_start_time] rewrites the first [Start time:] line: the
    time it reads moves back by 1 h 44 min and the line becomes
    [Start time (Corrected, UTC): ...]. The peak timestamp is the
    corrected start plus the offset at the first index where the force
    is greatest. For the test file that starts at 07/28/2025 00:00:00
    with the rows (0.0, 1.0), (1.0, 5.0), (2.0, 2.0) the corrected start
    is 2025-07-27 22:16:00, the peak index 1 and the peak timestamp
    2025-07-27 22:16:01. *)
Theorem peak_force_timestamp :
  DT.timedelta_hm 1 44 = (1 * 3600 + 44 * 60) * 1000000000 /\
  (forall (pre rest : list string) (line time_str : string) (t : Z),
     Forall (fun l => Str.startswith l "Start time:" = false) pre ->
     Str.startswith line "Start time:" = true ->
     Str.split_once ": " line !! 1%nat = Some time_str ->
     DT.strptime time_str "%m/%d/%Y %H:%M:%S.%f" = Some t ->
     DT.datetime_min <= t - DT.timedelta_hm 1 44 <= DT.datetime_max ->
     correct_start_time (pre ++ line :: rest)
     = Ok (pre ++ ("Start time (Corrected, UTC): "
                     +:+ DT.strftime (t - DT.timedelta_hm 1 44) "%m/%d/%Y %H:%M:%S")
                  :: rest,
           Some (t - DT.timedelta_hm 1 44))) /\
  (forall (lines meta : list string) (times forces : list Q) (start : Z),
     read_data lines = Ok (meta, times, forces, Some start) ->
     forces <> [] ->
     Forall (fun t => DT.datetime_min <= start + DT.timedelta_seconds t
                      <= DT.datetime_max) times ->
     exists (i : nat) (t : Q),
       Np.first_argmax forces i /\
       times !! i = Some t /\
       max_timestamp_of lines = Ok (start + DT.timedelta_seconds t)) /\
  read_data sample_test_lines
  = Ok (["Start time (Corrected, UTC): 07/27/2025 22:16:00"],
        [0%Q; 1%Q; 2%Q], [1%Q; 5%Q; 2%Q],
        Some (DT.datetime 2025 7 27 22 16 0)) /\
  Np.argmax [1%Q; 5%Q; 2%Q] = Ok 1%nat /\
  max_timestamp_of sample_test_lines = Ok (DT.datetime 2025 7 27 22 16 1).
Proof.
  split; [reflexivity|]. split; [apply correct_start_time_first|].
  split; [|repeat split; vm_compute; reflexivity].
  intros lines meta times forces start Hread Hne Hrange.
  destruct (argmax_spec forces Hne) as (i & Hi & Hmax).
  pose proof (read_data_lengths _ _ _ _ _ Hread) as Hlen.
  pose proof Hmax as (m & Hm & _).
  apply lookup_lt_Some in Hm. rewrite <- Hlen in Hm.
  apply lookup_lt_is_Some in Hm as [t Ht].
  exists i, t. split; [done|]. split; [done|].
  unfold max_timestamp_of. rewrite Hread. cbn [rbind].
  rewrite (time_data_dt_Ok start times Hrange []). simpl. rewrite Hi. simpl.
  unfold Np.item. by rewrite list_lookup_fmap, Ht.
Qed.

Lemma peak_force_timestamp_witness :
  correct_start_time
    ([] ++ "Start time: 07/28/2025 00:00:00.000000" :: ["Operator: N.N."])
  = Ok ([] ++ ("Start time (Corrected, UTC): "
                 +:+ DT.strftime (DT.datetime 2025 7 28 0 0 0 - DT.timedelta_hm 1 44)
                                 "%m/%d/%Y %H:%M:%S")
              :: ["Operator: N.N."],
        Some (DT.datetime 2025 7 28 0 0 0 - DT.timedelta_hm 1 44)) /\
  exists (i : nat) (t : Q),
    Np.first_argmax [1%Q; 5%Q; 2%Q] i /\
    [0%Q; 1%Q; 2%Q] !! i = Some t /\
    max_timestamp_of sample_test_lines
    = Ok (DT.datetime 2025 7 27 22 16 0 + DT.timedelta_seconds t).
Proof.
  destruct peak_force_timestamp as (_ & Hstart & Hpeak & Hread & _).
  split.
  - apply (Hstart [] ["Operator: N.N."] _ "07/28/2025 00:00:00.000000").
    + constructor.
    + reflexivity.
    + reflexivity.
    + vm_compute. reflexivity.
    + vm_compute. split; discriminate.
  - apply (Hpeak sample_test_lines _ _ _ _ Hread); [done|].
    repeat constructor; vm_compute; discriminate.
Defined.

(* ===================================================================== *)
(** ** The row of a test file *)

Lemma find_closest_timestamp_Ok (ds : sbe_dataset) (target : Z) :
  ds <> [] -> exists v, find_closest_timestamp (Some ds) target = Ok v.
Proof.
  intros Hne.
  destruct (closest_idx_spec sbe_datetime target ds Hne) as (i & r & Hr & Hi & _).
  unfold find_closest_timestamp, sbe_datetime_values. rewrite Hi. simpl.
  unfold Np.item. rewrite Hr. simpl. eauto.
Qed.

Lemma find_closest_measurements_Ok (peak : Z) (sbe : option sbe_dataset)
    (tst : option tstick_dataset) (den : density_dataset)
    (dt : Z) (dT dS dSV drho : Q) (tcell : option (Z * list (option Q))) :
  find_closest_density (Some den) peak = Ok (dt, dT, dS, dSV, drho) ->
  sbe <> Some [] ->
  match tst with
  | None => tcell = None
  | Some ds =>
      exists t temps, tcell = Some (t, temps) /\
        find_closest_tstick (Some ds) peak = Ok (Some (Some t), Some temps)
  end ->
  exists closest : gmap string pyval,
    _find_closest_measurements peak (Env sbe tst (Some den)) = Ok closest /\
    closest !! "ctd_time" = Some (VStr (stamp dt)) /\
    closest !! "ctd_T" = Some (VFloat (Some dT)) /\
    closest !! "ctd_S" = Some (VFloat (Some dS)) /\
    closest !! "ctd_SV" = Some (VFloat (Some dSV)) /\
    closest !! "ctd_rho" = Some (VFloat (Some drho)) /\
    closest !! "tstick_time" = (fun c => VStr (stamp c.1)) <$> tcell /\
    closest !! "tstick_profile"
    = (fun c => VStr (Str.join ";" (format_float 3 <$> c.2))) <$> tcell.
Proof.
  intros Hd Hsbe Hts.
  unfold _find_closest_measurements.
  cbn [get_ds_sbe get_ds_density get_ds_tsticks]. rewrite Hd.
  destruct sbe as [ds_sbe|].
  - destruct (find_closest_timestamp_Ok ds_sbe peak) as ([[[st sT] sS] sSV] & Hs);
      [by intros ->|].
    rewrite Hs. cbn [rbind].
    destruct tst as [ds_ts|].
    + destruct Hts as (t & temps & -> & Ht). rewrite Ht. cbn [rbind].
      eexists. split; [reflexivity|]. repeat split; reflexivity.
    + subst tcell. eexists. split; [reflexivity|]. repeat split; reflexivity.
  - cbn [rbind].
    destruct tst as [ds_ts|].
    + destruct Hts as (t & temps & -> & Ht). rewrite Ht. cbn [rbind].
      eexists. split; [reflexivity|]. repeat split; reflexivity.
    + subst tcell. eexists. split; [reflexivity|]. repeat split; reflexivity.
Qed.

Lemma create_info_file_Ok (reference_time : Z) (folder_path : folder)
    (test_file : file) (peak : Z) (closest : gmap string pyval)
    (a b c d : option Q) :
  closest !! "ctd_T" = Some (VFloat a) ->
  closest !! "ctd_S" = Some (VFloat b) ->
  closest !! "ctd_SV" = Some (VFloat c) ->
  closest !! "ctd_rho" = Some (VFloat d) ->
  exists out,
    _create_info_file reference_time folder_path test_file peak closest = Ok out.
Proof.
  intros Ha Hb Hc Hd. unfold _create_info_file.
  rewrite Ha, Hb, Hc, Hd. cbn [default format_spec_f rbind]. eauto.
Qed.

Lemma row_data_of_lookup (test_file : file) (peak : Z) (closest : gmap string pyval) :
  let row := row_data_of test_file peak closest in
  row !! "ctd_time" = Some (default (VStr "N/A") (closest !! "ctd_time")) /\
  row !! "ctd_T" = Some (default nan (closest !! "ctd_T")) /\
  row !! "ctd_S" = Some (default nan (closest !! "ctd_S")) /\
  row !! "ctd_SV" = Some (default nan (closest !! "ctd_SV")) /\
  row !! "ctd_rho" = Some (default nan (closest !! "ctd_rho")) /\
  row !! "tstick_time" = Some (default (VStr "N/A") (closest !! "tstick_time")) /\
  row !! "tstick_profile" = Some (default (VStr "N/A") (closest !! "tstick_profile")) /\
  row !! "Experiment_PeakTime" = Some (VStr (stamp peak)) /\
  row !! "measurement_file_[.txt]" = Some (VStr test_file.1) /\
  forall key : string, Str.startswith key "sbe_" = true -> row !! key = None.
Proof.
  unfold row_data_of. repeat split; try reflexivity.
  intros key Hkey.
  repeat (rewrite lookup_insert_ne; [|intros <-; discriminate Hkey]).
  apply lookup_empty.
Qed.

Lemma row_data_of_ext (test_file : file) (peak : Z) (c1 c2 : gmap string pyval) :
  c1 !! "ctd_time" = c2 !! "ctd_time" ->
  c1 !! "ctd_T" = c2 !! "ctd_T" ->
  c1 !! "ctd_S" = c2 !! "ctd_S" ->
  c1 !! "ctd_SV" = c2 !! "ctd_SV" ->
  c1 !! "ctd_rho" = c2 !! "ctd_rho" ->
  c1 !! "tstick_time" = c2 !! "tstick_time" ->
  c1 !! "tstick_profile" = c2 !! "tstick_profile" ->
  row_data_of test_file peak c1 = row_data_of test_file peak c2.
Proof.
  intros H1 H2 H3 H4 H5 H6 H7. unfold row_data_of.
  by rewrite H1, H2, H3, H4, H5, H6, H7.
Qed.

(** C2 (amended). For a test file whose peak timestamp is found, with
    the density stream present: the row holds the timestamp and the
    values of the nearest density reading in its [ctd_*] fields; its
    [tstick_*] fields hold the timestamp and the profile of the nearest
    temperature-stick reading when that stream is present and "N/A" when
    it is absent; the nearest CTD (SBE log) reading is looked up and is
    no part of the row, which is the row of the same folder without the
    CTD stream. *)
Theorem result_row_streams (reference_time : Z) (folder_path : folder)
    (test_file : file) (sbe : option sbe_dataset) (tst : option tstick_dataset)
    (den : density_dataset) (peak dt : Z) (dT dS dSV drho : Q) :
  max_timestamp_of test_file.2 = Ok peak ->
  find_closest_density (Some den) peak = Ok (dt, dT, dS, dSV, drho) ->
  sbe <> Some [] ->
  (forall ds, tst = Some ds ->
     exists t temps,
       find_closest_tstick (Some ds) peak = Ok (Some (Some t), Some temps)) ->
  exists row : gmap string pyval,
    _process_test_file reference_time folder_path test_file
      (Env sbe tst (Some den)) = Some row /\
    row !! "ctd_time" = Some (VStr (stamp dt)) /\
    row !! "ctd_T" = Some (VFloat (Some dT)) /\
    row !! "ctd_S" = Some (VFloat (Some dS)) /\
    row !! "ctd_SV" = Some (VFloat (Some dSV)) /\
    row !! "ctd_rho" = Some (VFloat (Some drho)) /\
    (tst = None ->
     row !! "tstick_time" = Some (VStr "N/A") /\
     row !! "tstick_profile" = Some (VStr "N/A")) /\
    (forall ds t temps,
       tst = Some ds ->
       find_closest_tstick (Some ds) peak = Ok (Some (Some t), Some temps) ->
       row !! "tstick_time" = Some (VStr (stamp t)) /\
       row !! "tstick_profile"
       = Some (VStr (Str.join ";" (format_float 3 <$> temps)))) /\
    (forall key : string, Str.startswith key "sbe_" = true -> row !! key = None) /\
    _process_test_file reference_time folder_path test_file
      (Env None tst (Some den)) = Some row.
Proof.
  intros Hpeak Hd Hsbe Hts.
  assert (exists tcell : option (Z * list (option Q)),
            match tst with
            | None => tcell = None
            | Some ds =>
                exists t temps, tcell = Some (t, temps) /\
                  find_closest_tstick (Some ds) peak = Ok (Some (Some t), Some temps)
            end) as [tcell Htcell].
  { destruct tst as [ds|]; [|by exists None].
    destruct (Hts ds eq_refl) as (t & temps & Ht). exists (Some (t, temps)). eauto. }
  destruct (find_closest_measurements_Ok peak sbe tst den _ _ _ _ _ tcell Hd Hsbe Htcell)
    as (c1 & Hc1 & H1 & H2 & H3 & H4 & H5 & H6 & H7).
  destruct (find_closest_measurements_Ok peak None tst den _ _ _ _ _ tcell Hd
              ltac:(done) Htcell)
    as (c2 & Hc2 & G1 & G2 & G3 & G4 & G5 & G6 & G7).
  destruct (create_info_file_Ok reference_time folder_path test_file peak c1
              _ _ _ _ H2 H3 H4 H5) as [out1 Hout1].
  destruct (create_info_file_Ok reference_time folder_path test_file peak c2
              _ _ _ _ G2 G3 G4 G5) as [out2 Hout2].
  exists (row_data_of test_file peak c1).
  destruct (row_data_of_lookup test_file peak c1)
    as (R1 & R2 & R3 & R4 & R5 & R6 & R7 & _ & _ & Rsbe).
  split.
  { unfold _process_test_file, process_test_file_body.
    rewrite Hpeak. cbn [rbind]. rewrite Hc1. cbn [rbind]. by rewrite Hout1. }
  rewrite R1, R2, R3, R4, R5, R6, R7, H1, H2, H3, H4, H5, H6, H7.
  do 5 (split; [reflexivity|]).
  split; [|split; [|split]].
  - intros ->. by subst tcell.
  - intros ds t temps -> Ht.
    destruct Htcell as (t' & temps' & -> & Ht'). rewrite Ht in Ht'.
    by injection Ht' as -> ->.
  - exact Rsbe.
  - unfold _process_test_file, process_test_file_body.
    rewrite Hpeak. cbn [rbind]. rewrite Hc2. cbn [rbind]. rewrite Hout2.
    f_equal. apply row_data_of_ext; congruence.
Qed.

Lemma result_row_streams_witness :
  exists row : gmap string pyval,
    _process_test_file sample_reference_time sample_folder sample_test_file
      (Env (Some sample_sbe_dataset) (Some sample_tstick_dataset)
           (Some sample_density_dataset)) = Some row /\
    row !! "ctd_time" = Some (VStr (stamp (DT.datetime 2025 1 1 12 0 0))) /\
    row !! "ctd_rho" = Some (VFloat (Some (2053 # 2))) /\
    row !! "tstick_time" = Some (VStr (stamp (DT.datetime 2025 7 28 10 0 1))) /\
    _process_test_file sample_reference_time sample_folder sample_test_file
      (Env None (Some sample_tstick_dataset) (Some sample_density_dataset))
    = Some row.
Proof.
  destruct (result_row_streams sample_reference_time sample_folder sample_test_file
              (Some sample_sbe_dataset) (Some sample_tstick_dataset)
              sample_density_dataset
              (DT.datetime 2025 7 27 22 16 1) (DT.datetime 2025 1 1 12 0 0)
              (-7 # 5) (333 # 10) 1441 (2053 # 2))
    as (row & Hrow & Htime & _ & _ & _ & Hrho & _ & Hts & _ & Hnone).
  - vm_compute. reflexivity.
  - vm_compute. reflexivity.
  - discriminate.
  - intros ds [= <-]. do 2 eexists. vm_compute. reflexivity.
  - exists row. split; [exact Hrow|]. split; [exact Htime|]. split; [exact Hrho|].
    split; [|exact Hnone].
    refine (proj1 (Hts sample_tstick_dataset (DT.datetime 2025 7 28 10 0 1)
                       (repeat (Some (-3 # 2)%Q) 16) eq_refl _)).
    vm_compute. reflexivity.
Defined.

(** C2, as stated, fails. With the CTD stream present, no cell of the
    row holds the timestamp or a value of the nearest CTD reading. And
    with the density stream absent (the other two present) the info
    file cannot format "N/A" as a number: the exception is caught and
    no row is emitted. *)
Lemma ctd_reading_dropped_and_row_suppressed :
  (exists (row : gmap string pyval) (st : Z) (sT sS sSV : Q),
     _process_test_file sample_reference_time sample_folder sample_test_file
       (Env (Some sample_sbe_dataset) None (Some sample_density_dataset))
     = Some row /\
     find_closest_timestamp (Some sample_sbe_dataset) (DT.datetime 2025 7 27 22 16 1)
     = Ok (st, sT, sS, sSV) /\
     forall (key : string) (v : pyval),
       row !! key = Some v ->
       v <> VStr (stamp st) /\ v <> VFloat (Some sT) /\
       v <> VFloat (Some sS) /\ v <> VFloat (Some sSV)) /\
  _process_test_file sample_reference_time sample_folder_no_density sample_test_file
    (Env (Some sample_sbe_dataset) (Some sample_tstick_dataset) None) = None.
Proof.
  split; [|vm_compute; reflexivity].
  eexists _, _, _, _, _. split; [vm_compute; reflexivity|].
  split; [vm_compute; reflexivity|].
  apply map_Forall_to_list. vm_compute.
  repeat (apply Forall_cons; split; [repeat split; discriminate|]).
  apply Forall_nil_2.
Qed.

(* ===================================================================== *)
(** * Further properties *)

(** ** dewesoft_reader.py *)

Lemma correct_start_time_absent (metadata : list string) :
  Forall (fun l => Str.startswith l "Start time:" = false) metadata ->
  correct_start_time metadata = Ok (metadata, None).
Proof.
  induction 1 as [|l metadata Hl _ IH]; simpl; [done|]. by rewrite Hl, IH.
Qed.

Lemma correct_start_time_inv (metadata metadata' : list string) (t : option Z) :
  correct_start_time metadata = Ok (metadata', t) ->
  length metadata' = length metadata /\
  match t with
  | None =>
      metadata' = metadata /\
      Forall (fun l => Str.startswith l "Start time:" = false) metadata
  | Some corrected =>
      exists pre line rest,
        metadata = pre ++ line :: rest /\
        Forall (fun l => Str.startswith l "Start time:" = false) pre /\
        Str.startswith line "Start time:" = true /\
        metadata'
        = pre ++ ("Start time (Corrected, UTC): "
                    +:+ DT.strftime corrected "%m/%d/%Y %H:%M:%S") :: rest
  end.
Proof.
  revert metadata' t. induction metadata as [|l metadata IH]; intros md' t; simpl.
  - intros [= <- <-]. done.
  - destruct (Str.startswith l "Start time:") eqn:Hl.
    + destruct (Np.item _ 1) as [time_str|]; [|done]. simpl.
      destruct (or_raise (DT.strptime time_str _) _) as [orig|]; [|done]. simpl.
      destruct (DT.datetime_add orig _) as [c|]; [|done]. simpl.
      intros [= <- <-]. split; [done|].
      exists [], l, metadata. done.
    + destruct (correct_start_time metadata) as [[rest' t']|] eqn:Hrec; [|done].
      simpl. intros [= <- <-].
      destruct (IH _ _ eq_refl) as [Hlen Hcase]. split; [simpl; lia|].
      destruct t' as [c|].
      * destruct Hcase as (pre & line & rest & -> & Hpre & Hline & ->).
        exists (l :: pre), line, rest. split; [done|].
        split; [by constructor|]. done.
      * destruct Hcase as [-> Hall]. split; [done|]. by constructor.
Qed.

(** X1. [read_data] returns as many time values as force values. *)
Theorem read_data_same_length (lines meta : list string) (times forces : list Q)
    (start : option Z) :
  read_data lines = Ok (meta, times, forces, start) ->
  length times = length forces.
Proof. apply read_data_lengths. Qed.

Lemma read_data_sample :
  read_data sample_test_lines
  = Ok (["Start time (Corrected, UTC): 07/27/2025 22:16:00"],
        [0%Q; 1%Q; 2%Q], [1%Q; 5%Q; 2%Q],
        Some (DT.datetime 2025 7 27 22 16 0)).
Proof. vm_compute. reflexivity. Qed.

Lemma read_data_same_length_witness :
  length [0%Q; 1%Q; 2%Q] = length [1%Q; 5%Q; 2%Q].
Proof. exact (read_data_same_length _ _ _ _ _ read_data_sample). Defined.

(** X2. When [correct_start_time] succeeds, the metadata keeps its
    length. Without a time the metadata is unchanged and no line starts
    with [Start time:]; with a time exactly the first such line is
    replaced by a line [Start time (Corrected, UTC): ...], which itself
    does not start with [Start time:]. *)
Theorem correct_start_time_result (metadata metadata' : list string) (t : option Z) :
  correct_start_time metadata = Ok (metadata', t) ->
  length metadata' = length metadata /\
  (t = None ->
   metadata' = metadata /\
   Forall (fun l => Str.startswith l "Start time:" = false) metadata) /\
  (forall corrected, t = Some corrected ->
   exists pre line rest,
     metadata = pre ++ line :: rest /\
     Forall (fun l => Str.startswith l "Start time:" = false) pre /\
     Str.startswith line "Start time:" = true /\
     metadata'
     = pre ++ ("Start time (Corrected, UTC): "
                 +:+ DT.strftime corrected "%m/%d/%Y %H:%M:%S") :: rest /\
     Str.startswith ("Start time (Corrected, UTC): "
                       +:+ DT.strftime corrected "%m/%d/%Y %H:%M:%S")
                    "Start time:" = false).
Proof.
  intros [Hlen Hcase]%correct_start_time_inv. split; [done|]. split.
  - by intros ->.
  - intros corrected ->.
    destruct Hcase as (pre & line & rest & H1 & H2 & H3 & H4).
    exists pre, line, rest. done.
Qed.

Lemma correct_start_time_result_witness :
  length ["Start time (Corrected, UTC): 07/27/2025 22:16:00"; "Operator: N.N."]
  = length ["Start time: 07/28/2025 00:00:00.000000"; "Operator: N.N."].
Proof.
  refine (proj1 (correct_start_time_result
                   ["Start time: 07/28/2025 00:00:00.000000"; "Operator: N.N."]
                   _ (Some (DT.datetime 2025 7 27 22 16 0)) _)).
  vm_compute. reflexivity.
Defined.

(** X3. A second pass of [correct_start_time] over corrected metadata
    that held a single [Start time:] line changes nothing and finds no
    time: the correction is not applied twice. *)
Theorem correct_start_time_once (metadata metadata' : list string) (corrected : Z) :
  correct_start_time metadata = Ok (metadata', Some corrected) ->
  length (filter (fun l => Str.startswith l "Start time:" = true) metadata) = 1%nat ->
  correct_start_time metadata' = Ok (metadata', None).
Proof.
  intros (_ & pre & line & rest & -> & Hpre & Hline & ->)%correct_start_time_inv Hone.
  apply correct_start_time_absent.
  rewrite filter_app, filter_cons, decide_True in Hone by done.
  rewrite length_app in Hone. simpl in Hone.
  assert (filter (fun l => Str.startswith l "Start time:" = true) rest = [])
    as Hrest by (apply length_zero_iff_nil; lia).
  apply Forall_app. split; [done|]. constructor; [done|].
  apply Forall_forall. intros l Hl.
  destruct (Str.startswith l "Start time:") eqn:Hs; [|done].
  assert (l ∈ filter (fun l => Str.startswith l "Start time:" = true) rest) as Hin
    by (by apply list_elem_of_filter).
  rewrite Hrest in Hin. by apply elem_of_nil in Hin.
Qed.

Lemma correct_start_time_once_witness :
  correct_start_time
    ["Start time (Corrected, UTC): 07/27/2025 22:16:00"; "Operator: N.N."]
  = Ok (["Start time (Corrected, UTC): 07/27/2025 22:16:00"; "Operator: N.N."], None).
Proof.
  apply (correct_start_time_once
           ["Start time: 07/28/2025 00:00:00.000000"; "Operator: N.N."]
           _ (DT.datetime 2025 7 27 22 16 0)); vm_compute; reflexivity.
Defined.

Lemma max_timestamp_of_no_start (lines meta : list string) (times forces : list Q) :
  read_data lines = Ok (meta, times, forces, None) ->
  exists e, max_timestamp_of lines = Raise e.
Proof.
  intros Hread. pose proof (read_data_lengths _ _ _ _ _ Hread) as Hlen.
  unfold max_timestamp_of. rewrite Hread. cbn [rbind].
  destruct times as [|t times].
  - destruct forces; [|done]. simpl. eauto.
  - simpl. eauto.
Qed.

Lemma process_test_file_no_peak (reference_time : Z) (folder_path : folder)
    (test_file : file) (env : env_data) (e : exn) :
  max_timestamp_of test_file.2 = Raise e ->
  _process_test_file reference_time folder_path test_file env = None.
Proof.
  intros He. unfold _process_test_file, process_test_file_body. by rewrite He.
Qed.

(** X4. A test file that [read_data] reads without a [Start time:] line
    in its metadata has no absolute times: [_process_test_file] raises
    inside its [try] and returns [None], whatever the environmental
    data. *)
Theorem no_start_time_no_row (reference_time : Z) (folder_path : folder)
    (name : string) (lines meta : list string) (times forces : list Q) :
  read_data lines = Ok (meta, times, forces, None) ->
  Forall (fun l => Str.startswith l "Start time:" = false) meta /\
  forall env : env_data,
    _process_test_file reference_time folder_path (name, lines) env = None.
Proof.
  intros Hread. split.
  - unfold read_data in Hread.
    destruct (for_each read_line lines _) as [st|]; [|done]. simpl in Hread.
    destruct (correct_start_time _) as [[meta' t]|] eqn:Hc; [|done].
    simpl in Hread. injection Hread as <- _ _ ->.
    by apply correct_start_time_inv in Hc as (_ & -> & Hall).
  - intros env. destruct (max_timestamp_of_no_start _ _ _ _ Hread) as [e He].
    by eapply process_test_file_no_peak.
Qed.

Lemma no_start_time_no_row_witness :
  _process_test_file sample_reference_time sample_folder
    ("Test02_b.txt", ["Operator: N.N." +:+ nl; "Data1" +:+ nl;
                      "0.0" +:+ String "009" "1.0" +:+ nl])
    (Env (Some sample_sbe_dataset) (Some sample_tstick_dataset)
         (Some sample_density_dataset)) = None.
Proof.
  refine (proj2 (no_start_time_no_row sample_reference_time sample_folder
                   "Test02_b.txt" _ ["Operator: N.N."] [0%Q] [1%Q] _) _).
  vm_compute. reflexivity.
Defined.

Lemma read_lines_no_sentinel (lines : list string) :
  Forall (fun l => Str.startswith (Str.strip l) "Data1" = false) lines ->
  forall metadata : list string,
    for_each read_line lines (mkReadState metadata false [] [])
    = Ok (mkReadState (metadata ++ (Str.strip <$> lines)) false [] []).
Proof.
  induction 1 as [|l lines Hl _ IH]; intros metadata; simpl.
  - by rewrite app_nil_r.
  - unfold read_line at 1. rewrite Hl. simpl. rewrite IH.
    by rewrite <- app_assoc.
Qed.

(** X5. In a file without a line that starts with [Data1] every line is
    metadata: [read_data] returns no time and no force value, and
    [_process_test_file] returns [None] for it. *)
Theorem no_sentinel_no_data (lines : list string) :
  Forall (fun l => Str.startswith (Str.strip l) "Data1" = false) lines ->
  read_data lines
  = (let! (metadata, corrected_time) := correct_start_time (Str.strip <$> lines) in
     Ok (metadata, [], [], corrected_time)) /\
  forall (reference_time : Z) (folder_path : folder) (name : string) (env : env_data),
    _process_test_file reference_time folder_path (name, lines) env = None.
Proof.
  intros Hall.
  assert (read_data lines
          = (let! (metadata, corrected_time) := correct_start_time (Str.strip <$> lines) in
             Ok (metadata, [], [], corrected_time))) as Hread.
  { unfold read_data. by rewrite (read_lines_no_sentinel lines Hall []). }
  split; [done|]. intros reference_time folder_path name env.
  unfold _process_test_file, process_test_file_body, max_timestamp_of. simpl.
  rewrite Hread.
  destruct (correct_start_time _) as [[metadata t]|]; [|done]. simpl. done.
Qed.

Lemma no_sentinel_no_data_witness :
  read_data ["Start time: 07/28/2025 00:00:00.000000" +:+ nl;
             "0.0" +:+ String "009" "1.0" +:+ nl]
  = (let! (metadata, corrected_time) :=
       correct_start_time
         (Str.strip <$> ["Start time: 07/28/2025 00:00:00.000000" +:+ nl;
                         "0.0" +:+ String "009" "1.0" +:+ nl]) in
     Ok (metadata, [], [], corrected_time)).
Proof.
  refine (proj1 (no_sentinel_no_data _ _)).
  repeat constructor.
Defined.

(* ===================================================================== *)
(** ** Matching and ordering of file names *)

#[local] Instance name_le_trans : Transitive name_le.
Proof. intros f g h. unfold name_le. apply transitivity. Qed.
#[local] Instance name_le_total : Total name_le.
Proof. intros f g. unfold name_le. apply total, _. Qed.



Lemma fnmatch_head (c : ascii) (p s : string) :
  c <> "*"%char -> fnmatch (String c p) s = true -> exists s', s = String c s'.
Proof.
  intros Hc. simpl. destruct (ascii_dec c "*"); [done|].
  destruct s as [|b s]; [done|]. destruct (ascii_dec c b) as [->|]; [eauto|done].
Qed.

(** X7. [_find_test_files] returns, ordered by name, the files of the
    folder whose name matches one of the three test patterns; no file is
    returned twice, a name matching one pattern only. *)
Theorem find_test_files_sorted (folder_path : folder) :
  StronglySorted name_le (_find_test_files folder_path) /\
  (forall f : file,
     f ∈ _find_test_files folder_path <->
     f ∈ folder_files folder_path /\ is_test_name f.1) /\
  (NoDup (folder_files folder_path) -> NoDup (_find_test_files folder_path)).
Proof.
  split; [apply (StronglySorted_merge_sort name_le)|].
  unfold _find_test_files. split.
  - intros f. rewrite merge_sort_Permutation. simpl. rewrite app_nil_r.
    rewrite !elem_of_app, !list_elem_of_filter. unfold is_test_name. tauto.
  - intros Hnd. rewrite merge_sort_Permutation. simpl. rewrite app_nil_r.
    assert (forall (p : string) (f : file),
              glob_match p f.1 = true -> fnmatch p f.1 = true) as Hfn.
    { intros p f Hm. unfold glob_match in Hm. by apply andb_true_iff in Hm as [? _]. }
    apply NoDup_app. split; [by apply NoDup_filter|]. split.
    + intros f [H1 _]%list_elem_of_filter Hin.
      apply Hfn, fnmatch_head in H1 as [s1 H1]; [|done].
      apply elem_of_app in Hin as [[H2 _]%list_elem_of_filter|[H2 _]%list_elem_of_filter];
        apply Hfn, fnmatch_head in H2 as [s2 H2]; [|done| |done];
        rewrite H1 in H2; discriminate H2.
    + apply NoDup_app. split; [by apply NoDup_filter|]. split; [|by apply NoDup_filter].
      intros f [H1 _]%list_elem_of_filter [H2 _]%list_elem_of_filter.
      apply Hfn, fnmatch_head in H1 as [s1 H1]; [|done].
      apply Hfn, fnmatch_head in H2 as [s2 H2]; [|done].
      rewrite H1 in H2. discriminate H2.
Qed.

Lemma find_test_files_sorted_witness :
  NoDup (_find_test_files sample_folder).
Proof.
  apply (find_test_files_sorted sample_folder).
  vm_compute. repeat (apply NoDup_cons_2; [intros Hin; repeat (apply elem_of_cons in Hin as [Hin|Hin]; [discriminate Hin|]); by apply elem_of_nil in Hin|]).
  apply NoDup_nil_2.
Defined.

(* ===================================================================== *)
(** ** Parsers and locators together *)

Lemma find_closest_density_Ok (ds : density_dataset) (target : Z) :
  ds <> [] -> exists v, find_closest_density (Some ds) target = Ok v.
Proof.
  intros Hne.
  destruct (closest_idx_spec den_datetime target ds Hne) as (i & r & Hr & Hi & _).
  unfold find_closest_density, density_datetime_values. rewrite Hi. simpl.
  unfold Np.item. rewrite Hr. simpl. eauto.
Qed.

(** X8. A table that [read_sbe_data] or [process_sbe37cnv_data]
    returns is never empty, and its locator succeeds on it for every
    target. *)
Theorem parsed_table_has_nearest (pd_to_datetime : string -> option Z)
    (dir : list file) (pattern : string) (target : Z) :
  (forall ds : sbe_dataset,
     read_sbe_data dir pattern = Ok (Some ds) ->
     ds <> [] /\ exists v, find_closest_timestamp (Some ds) target = Ok v) /\
  (forall ds : density_dataset,
     process_sbe37cnv_data pd_to_datetime dir pattern = Ok ds ->
     ds <> [] /\ exists v, find_closest_density (Some ds) target = Ok v).
Proof.
  split.
  - intros ds [Hne _]%read_sbe_data_Ok. split; [done|].
    by apply find_closest_timestamp_Ok.
  - intros ds (files & lastf & _ & Hne & _)%process_sbe37cnv_data_Ok.
    split; [done|]. by apply find_closest_density_Ok.
Qed.

Lemma parsed_table_has_nearest_witness :
  (sample_sbe_dataset <> [] /\
   exists v, find_closest_timestamp (Some sample_sbe_dataset) 0 = Ok v) /\
  (sample_density_dataset <> [] /\
   exists v, find_closest_density (Some sample_density_dataset) 0 = Ok v).
Proof.
  split.
  - apply (proj1 (parsed_table_has_nearest iso_dates (folder_files sample_folder)
                    "SBE*.log" 0)), sample_sbe_run.
  - apply (proj2 (parsed_table_has_nearest iso_dates (folder_files sample_folder)
                    "*.cnv" 0)), sample_density_run.
Defined.

Lemma closest_exact {A : Type} (time : A -> Z) (target : Z) (ds : list A) (r0 : A) :
  r0 ∈ ds -> time r0 = target ->
  exists i r, ds !! i = Some r /\ time r = target /\
    Np.argmin (Np.abs_diff target ((fun r => Some (time r)) <$> ds)) = Ok i.
Proof.
  intros Hin Ht.
  destruct (closest_idx_spec time target ds) as (i & r & Hr & Hi & m & Hm & Hle & _).
  { intros ->. by apply elem_of_nil in Hin. }
  exists i, r. split; [done|]. split; [|done].
  apply list_elem_of_lookup in Hin as [j Hj].
  rewrite list_lookup_fmap, Hr in Hm. injection Hm as <-.
  specialize (Hle j (Z.abs (time r0 - target))).
  rewrite list_lookup_fmap, Hj in Hle. specialize (Hle eq_refl). lia.
Qed.

(** X9. When a row of the table carries exactly the target timestamp,
    the CTD and density locators return a reading with that timestamp. *)
Theorem locator_exact_timestamp (target : Z) :
  (forall (ds : sbe_dataset) (r0 : sbe_row),
     r0 ∈ ds -> sbe_datetime r0 = target ->
     exists T S SV, find_closest_timestamp (Some ds) target = Ok (target, T, S, SV)) /\
  (forall (ds : density_dataset) (r0 : density_row),
     r0 ∈ ds -> den_datetime r0 = target ->
     exists T S SV rho,
       find_closest_density (Some ds) target = Ok (target, T, S, SV, rho)).
Proof.
  split.
  - intros ds r0 Hin Ht.
    destruct (closest_exact sbe_datetime target ds r0 Hin Ht) as (i & r & Hr & Hrt & Hi).
    unfold find_closest_timestamp, sbe_datetime_values. rewrite Hi. simpl.
    unfold Np.item. rewrite Hr. simpl. rewrite Hrt. eauto.
  - intros ds r0 Hin Ht.
    destruct (closest_exact den_datetime target ds r0 Hin Ht) as (i & r & Hr & Hrt & Hi).
    unfold find_closest_density, density_datetime_values. rewrite Hi. simpl.
    unfold Np.item. rewrite Hr. simpl. rewrite Hrt. eauto.
Qed.

Lemma locator_exact_timestamp_witness :
  (exists T S SV,
     find_closest_timestamp (Some [mkSbeRow 10 1 2 3; mkSbeRow 20 4 5 6]) 20
     = Ok (20, T, S, SV)) /\
  (exists T S SV rho,
     find_closest_density
       (Some [mkDensityRow 10 1 2 3 4 5 6; mkDensityRow 20 7 8 9 10 11 12]) 20
     = Ok (20, T, S, SV, rho)).
Proof.
  destruct (locator_exact_timestamp 20) as [Hsbe Hden]. split.
  - apply (Hsbe _ (mkSbeRow 20 4 5 6)); [|reflexivity].
    apply list_elem_of_further, list_elem_of_here.
  - apply (Hden _ (mkDensityRow 20 7 8 9 10 11 12)); [|reflexivity].
    apply list_elem_of_further, list_elem_of_here.
Defined.

(* ===================================================================== *)
(** ** The rows of the temperature-stick table *)

Lemma read_tstick_data_width (dir : list file) (pattern : string) (rate : Z)
    (ds : tstick_dataset) :
  read_tstick_data dir pattern rate = Ok ds ->
  (frame_width (tstick_valid_data (sorted_glob dir pattern)) - 3)%nat = 16%nat.
Proof.
  unfold read_tstick_data.
  destruct (tstick_valid_data (sorted_glob dir pattern)) as [|line valid]; [done|].
  case_decide as Hw; [|done]. intros _. exact Hw.
Qed.

(** X10. Every row of a table that [read_tstick_data] returns comes from
    a valid line of a matched file and carries a profile of 16 values,
    one for each point of [z]. *)
Theorem tstick_profiles_fit_z (dir : list file) (pattern : string) (rate : Z)
    (ds : tstick_dataset) :
  read_tstick_data dir pattern rate = Ok ds ->
  forall r : tstick_row,
    r ∈ ts_rows ds ->
    r ∈ tstick_frame (tstick_valid_data (sorted_glob dir pattern)) /\
    length (ts_T r) = length (ts_z ds).
Proof.
  intros Hds r Hr.
  pose proof (read_tstick_data_width _ _ _ _ Hds) as Hw.
  destruct (read_tstick_data_rows _ _ _ _ Hds) as [Hrows _].
  assert (length (ts_z ds) = 16%nat) as ->.
  { apply read_tstick_data_Ok in Hds as ->. reflexivity. }
  rewrite Hrows in Hr. unfold sort_values in Hr.
  rewrite merge_sort_Permutation in Hr.
  apply list_elem_of_filter in Hr as [_ Hr]. split; [done|].
  unfold tstick_frame in Hr. apply list_elem_of_fmap in Hr as (cells & -> & _).
  unfold tstick_frame_row. simpl. by rewrite length_fmap, length_seq.
Qed.

Lemma tstick_profiles_fit_z_witness :
  mkTstickRow (Some (DT.datetime 2025 7 28 10 0 1)) (repeat (Some (-3 # 2)%Q) 16)
    ∈ tstick_frame (tstick_valid_data
                      (sorted_glob (folder_files sample_folder) "T_Stick_2025*.log")) /\
  length (repeat (Some (-3 # 2)%Q) 16) = length (ts_z sample_tstick_dataset).
Proof.
  apply (tstick_profiles_fit_z _ _ _ _ (sample_tstick_run 10)
           (mkTstickRow (Some (DT.datetime 2025 7 28 10 0 1))
                        (repeat (Some (-3 # 2)%Q) 16))).
  apply list_elem_of_here.
Defined.

(** X11. When every timestamp of the valid lines occurs more than once,
    [read_tstick_data] returns a table without rows, not an error; on
    that table [find_closest_tstick] raises [ValueError], and a test
    file joined against it yields no row. *)
Theorem tstick_all_repeated_empty (dir : list file) (pattern : string) (rate : Z)
    (ds : tstick_dataset) :
  read_tstick_data dir pattern rate = Ok ds ->
  (forall t : option Z,
     count_datetime t (tstick_frame (tstick_valid_data (sorted_glob dir pattern)))
     <> 1%nat) ->
  ts_rows ds = [] /\
  (forall target : Z, find_closest_tstick (Some ds) target = Raise ValueError) /\
  (forall (reference_time : Z) (folder_path : folder) (test_file : file)
          (sbe : option sbe_dataset) (den : option density_dataset),
     _process_test_file reference_time folder_path test_file (Env sbe (Some ds) den)
     = None).
Proof.
  intros Hds Hrep.
  assert (ts_rows ds = []) as Hempty.
  { destruct (ts_rows ds) as [|r rows] eqn:Hrows; [done|]. exfalso.
    destruct (read_tstick_data_rows _ _ _ _ Hds) as [Heq _].
    apply (Hrep (ts_datetime r)). apply drop_all_duplicated_elem.
    apply list_elem_of_fmap. exists r. split; [done|].
    assert (r ∈ ts_rows ds) as Hin by (rewrite Hrows; left).
    rewrite Heq in Hin. unfold sort_values in Hin.
    by rewrite merge_sort_Permutation in Hin. }
  assert (forall target, find_closest_tstick (Some ds) target = Raise ValueError)
    as Hraise.
  { intros target. unfold find_closest_tstick. by rewrite Hempty. }
  split; [done|]. split; [done|].
  intros reference_time folder_path test_file sbe den.
  unfold _process_test_file, process_test_file_body.
  destruct (max_timestamp_of test_file.2) as [peak|]; [|done]. cbn [rbind].
  unfold _find_closest_measurements. cbn [get_ds_sbe get_ds_density get_ds_tsticks].
  rewrite Hraise.
  destruct sbe as [ds_sbe|]; [destruct (find_closest_timestamp _ _) as [[[[? ?] ?] ?]|]|];
    cbn [rbind]; try done;
    (destruct den as [ds_den|];
     [destruct (find_closest_density _ _) as [[[[[? ?] ?] ?] ?]|]|]; cbn [rbind]; done).
Qed.

Lemma tstick_all_repeated_empty_witness :
  ts_rows (mkTstickDataset [] z_coordinate) = [] /\
  find_closest_tstick (Some (mkTstickDataset [] z_coordinate)) 0 = Raise ValueError.
Proof.
  destruct (tstick_all_repeated_empty
              [("T_Stick_2025_08.log",
                [tstick_line "2025-07-28 10:00:03.000" "-1.75";
                 tstick_line "2025-07-28 10:00:03.000" "-2.00"])]
              "T_Stick_2025*.log" 10 (mkTstickDataset [] z_coordinate))
    as (Hrows & Hraise & _).
  - vm_compute. reflexivity.
  - intros t. unfold count_datetime.
    match goal with
    | |- length (filter _ ?rows) <> _ =>
        let rows' := eval vm_compute in rows in change rows with rows'
    end.
    rewrite !filter_cons, filter_nil. simpl.
    destruct (decide (Some 1753696803000000000 = t)); simpl; lia.
  - split; [exact Hrows|exact (Hraise 0)].
Defined.

(* ===================================================================== *)
(** ** What the loader catches *)

Section DensityErrors.

Variable pd_to_datetime : string -> option Z.

Lemma for_each_density_file_missing_end (files : list file) :
  Exists (fun f : file => find_end_index f.2 = None) files ->
  forall st, for_each (density_file pd_to_datetime) files st = Raise ValueError.
Proof.
  induction 1 as [f files Hf|f files _ IH]; intros st; simpl.
  - unfold density_file. by rewrite Hf.
  - unfold density_file at 1. destruct (find_end_index f.2); [|done]. simpl.
    apply IH.
Qed.

Lemma for_each_density_file_all_end (files : list file) :
  Forall (fun f : file => find_end_index f.2 <> None) files ->
  forall st, exists year,
    for_each (density_file pd_to_datetime) files st
    = Ok (st.1 ++ flat_map density_file_rows files, year).
Proof.
  induction 1 as [|f files Hf _ IH]; intros [data year]; simpl.
  - exists year. by rewrite app_nil_r.
  - unfold density_file at 1, density_file_rows at 1.
    destruct (find_end_index f.2) as [i|]; [|done]. simpl.
    destruct (IH (data ++ flat_map density_line_rows (drop (S i) f.2),
                  header_year pd_to_datetime f.2)) as [year' ->].
    exists year'. simpl. by rewrite app_assoc.
Qed.

(** The three outcomes of [process_sbe37cnv_data] that are no table. *)
Lemma process_sbe37cnv_data_cases (dir : list file) (pattern : string) :
  let files := sorted_glob dir pattern in
  (files = [] /\
   process_sbe37cnv_data pd_to_datetime dir pattern = Raise FileNotFoundError) \/
  (files <> [] /\ Exists (fun f : file => find_end_index f.2 = None) files /\
   process_sbe37cnv_data pd_to_datetime dir pattern = Raise ValueError) \/
  (files <> [] /\ Forall (fun f : file => find_end_index f.2 <> None) files /\
   flat_map density_file_rows files = [] /\
   process_sbe37cnv_data pd_to_datetime dir pattern = Raise IndexError) \/
  (files <> [] /\ Forall (fun f : file => find_end_index f.2 <> None) files /\
   flat_map density_file_rows files <> [] /\
   exists ds, process_sbe37cnv_data pd_to_datetime dir pattern = Ok ds).
Proof.
  intros files. unfold process_sbe37cnv_data. fold files.
  destruct files as [|f fs] eqn:Hfiles; [by left|]. right.
  destruct (decide (Exists (fun f : file => find_end_index f.2 = None) (f :: fs)))
    as [Hex|Hall].
  - left. split; [done|]. split; [done|].
    by rewrite (for_each_density_file_missing_end _ Hex).
  - right. apply not_Exists_Forall in Hall; [|intros ?; apply _].
    destruct (for_each_density_file_all_end _ Hall ([], fallback_year)) as [year ->].
    cbn [rbind fst app].
    destruct (flat_map density_file_rows (f :: fs)) as [|row rows] eqn:Hrows.
    + left. done.
    + right. split; [done|]. split; [done|]. split; [done|].
      destruct (last _) eqn:Hlast; [eauto|].
      by apply last_None in Hlast.
Qed.

End DensityErrors.

Lemma read_tstick_data_raises (dir : list file) (pattern : string) (rate : Z) (e : exn) :
  read_tstick_data dir pattern rate = Raise e -> e = ValueError.
Proof.
  unfold read_tstick_data. destruct (tstick_valid_data _); [by intros [= <-]|].
  case_decide; [done|by intros [= <-]].
Qed.

(** The loader with the three results in hand. *)
Lemma load_environmental_data_unfold (pd_to_datetime : string -> option Z)
    (folder_path : folder) :
  exists (ds_sbe : option sbe_dataset) (ds_tsticks : option tstick_dataset),
    read_sbe_data (folder_files folder_path) "SBE*.log" = Ok ds_sbe /\
    (ds_tsticks = None <->
     read_tstick_data (folder_files folder_path) "T_Stick_2025*.log" 10
     = Raise ValueError) /\
    _load_environmental_data pd_to_datetime folder_path
    = match process_sbe37cnv_data pd_to_datetime (folder_files folder_path) "*.cnv" with
      | Ok ds => Env ds_sbe ds_tsticks (Some ds)
      | Raise FileNotFoundError | Raise ValueError => Env ds_sbe ds_tsticks None
      | Raise _ => EnvEmpty
      end.
Proof.
  destruct (read_sbe_data_total (folder_files folder_path) "SBE*.log") as [ds_sbe Hsbe].
  unfold _load_environmental_data. rewrite Hsbe. cbn [rbind].
  destruct (read_tstick_data _ _ 10) as [ds|e] eqn:Hts.
  - exists ds_sbe, (Some ds). split; [done|]. split; [done|]. cbn [rbind except].
    by destruct (process_sbe37cnv_data _ _ _) as [?|[]].
  - apply read_tstick_data_raises in Hts as ->.
    exists ds_sbe, None. split; [done|]. split; [done|]. cbn [rbind except].
    by destruct (process_sbe37cnv_data _ _ _) as [?|[]].
Qed.

(** X12. When a matched density file has no [*END*] line,
    [process_sbe37cnv_data] raises [ValueError] for the whole pattern,
    whatever the other files hold, and the loader records the density
    stream as absent. *)
Theorem density_missing_end_marker (pd_to_datetime : string -> option Z)
    (folder_path : folder) (f : file) :
  f ∈ sorted_glob (folder_files folder_path) "*.cnv" ->
  find_end_index f.2 = None ->
  process_sbe37cnv_data pd_to_datetime (folder_files folder_path) "*.cnv"
  = Raise ValueError /\
  exists ds_sbe ds_tsticks,
    _load_environmental_data pd_to_datetime folder_path = Env ds_sbe ds_tsticks None.
Proof.
  intros Hin Hend.
  assert (process_sbe37cnv_data pd_to_datetime (folder_files folder_path) "*.cnv"
          = Raise ValueError) as Hraise.
  { unfold process_sbe37cnv_data.
    destruct (sorted_glob _ _) as [|f0 fs] eqn:Hglob; [by apply elem_of_nil in Hin|].
    rewrite for_each_density_file_missing_end; [done|].
    apply Exists_exists. eauto. }
  split; [done|].
  destruct (load_environmental_data_unfold pd_to_datetime folder_path)
    as (ds_sbe & ds_tsticks & _ & _ & ->).
  rewrite Hraise. eauto.
Qed.

Lemma density_missing_end_marker_witness :
  process_sbe37cnv_data iso_dates
    [sample_cnv; ("older.cnv", ["# start_time = 2024-06-01" +:+ nl])] "*.cnv"
  = Raise ValueError.
Proof.
  refine (proj1 (density_missing_end_marker iso_dates
                   (mkFolder "exp2"
                      [sample_cnv; ("older.cnv", ["# start_time = 2024-06-01" +:+ nl])])
                   ("older.cnv", ["# start_time = 2024-06-01" +:+ nl]) _ _)).
  - vm_compute. apply list_elem_of_here.
  - reflexivity.
Defined.

(** X13. [_load_environmental_data] returns the empty dictionary exactly
    when the density parser raises [IndexError], which it does exactly
    when files match [*.cnv], each has its [*END*] line, and none has a
    data row. In every other case the dictionary holds the three
    entries, the CTD entry being what [read_sbe_data] returns. *)
Theorem load_environmental_data_empty_iff (pd_to_datetime : string -> option Z)
    (folder_path : folder) :
  let files := sorted_glob (folder_files folder_path) "*.cnv" in
  (_load_environmental_data pd_to_datetime folder_path = EnvEmpty <->
   process_sbe37cnv_data pd_to_datetime (folder_files folder_path) "*.cnv"
   = Raise IndexError) /\
  (process_sbe37cnv_data pd_to_datetime (folder_files folder_path) "*.cnv"
   = Raise IndexError <->
   files <> [] /\ Forall (fun f : file => find_end_index f.2 <> None) files /\
   flat_map density_file_rows files = []) /\
  (_load_environmental_data pd_to_datetime folder_path <> EnvEmpty ->
   exists ds_sbe ds_tsticks ds_density,
     read_sbe_data (folder_files folder_path) "SBE*.log" = Ok ds_sbe /\
     _load_environmental_data pd_to_datetime folder_path
     = Env ds_sbe ds_tsticks ds_density).
Proof.
  intros files.
  destruct (load_environmental_data_unfold pd_to_datetime folder_path)
    as (ds_sbe & ds_tsticks & Hsbe & _ & Hload).
  pose proof (process_sbe37cnv_data_cases pd_to_datetime
                (folder_files folder_path) "*.cnv") as Hcases.
  fold files in Hcases. cbv zeta in Hcases.
  split; [|split].
  - rewrite Hload.
    destruct Hcases as [[_ ->]|[(_ & _ & ->)|[(_ & _ & _ & ->)|(_ & _ & _ & ds & ->)]]];
      done.
  - destruct Hcases as [[Hnil ->]|[(Hne & Hex & ->)|[(Hne & Hall & Hrows & ->)
                                                    |(Hne & Hall & Hrows & ds & ->)]]].
    + split; [done|]. by intros [? _].
    + split; [done|]. intros (_ & Hall & _). exfalso.
      apply Exists_exists in Hex as (f & Hf & Hend).
      rewrite Forall_forall in Hall. by apply (Hall f Hf).
    + done.
    + split; [done|]. by intros (_ & _ & ?).
  - intros Hne. rewrite Hload in Hne |- *.
    destruct (process_sbe37cnv_data _ _ _) as [ds|[]]; try done; eauto.
Qed.

Lemma load_environmental_data_empty_iff_witness :
  _load_environmental_data iso_dates sample_folder_no_density_rows = EnvEmpty /\
  exists ds_sbe ds_tsticks ds_density,
    read_sbe_data (folder_files sample_folder) "SBE*.log" = Ok ds_sbe /\
    _load_environmental_data iso_dates sample_folder
    = Env ds_sbe ds_tsticks ds_density.
Proof.
  split.
  - apply (load_environmental_data_empty_iff iso_dates sample_folder_no_density_rows).
    vm_compute. reflexivity.
  - apply (load_environmental_data_empty_iff iso_dates sample_folder).
    vm_compute. discriminate.
Defined.

(* ===================================================================== *)
(** ** Rows of a folder *)

Lemma find_closest_measurements_no_density (peak : Z) (sbe : option sbe_dataset)
    (tst : option tstick_dataset) (closest : gmap string pyval) :
  _find_closest_measurements peak (Env sbe tst None) = Ok closest ->
  closest !! "ctd_T" = None.
Proof.
  unfold _find_closest_measurements.
  cbn [get_ds_sbe get_ds_density get_ds_tsticks].
  destruct sbe as [ds_sbe|];
    [destruct (find_closest_timestamp _ _) as [[[[st sT] sS] sSV]|]; [|done]|];
    cbn [rbind];
    (destruct tst as [ds_ts|];
     [destruct (find_closest_tstick _ _) as [[t [temps|]]|]; [| |done]; cbn [rbind];
      [destruct (stamp64 _); [|done]; cbn [rbind]|]|]);
    by intros [= <-].
Qed.

Lemma process_test_file_no_density (reference_time : Z) (folder_path : folder)
    (test_file : file) (sbe : option sbe_dataset) (tst : option tstick_dataset) :
  _process_test_file reference_time folder_path test_file (Env sbe tst None) = None.
Proof.
  unfold _process_test_file, process_test_file_body.
  destruct (max_timestamp_of test_file.2) as [peak|]; [|done]. cbn [rbind].
  destruct (_find_closest_measurements peak _) as [closest|] eqn:Hc; [|done].
  cbn [rbind]. apply find_closest_measurements_no_density in Hc.
  unfold _create_info_file. by rewrite Hc.
Qed.

(** X14. With the density stream absent no test file yields a row: the
    info file formats the missing [ctd_T] ("N/A") as a number, and the
    [ValueError] is caught. A folder in which no file matches [*.cnv]
    has therefore no summary. *)
Theorem no_density_no_rows (pd_to_datetime : string -> option Z) (reference_time : Z) :
  (forall (folder_path : folder) (test_file : file) (sbe : option sbe_dataset)
          (tst : option tstick_dataset),
     _process_test_file reference_time folder_path test_file (Env sbe tst None)
     = None) /\
  (forall folder_path : folder,
     sorted_glob (folder_files folder_path) "*.cnv" = [] ->
     process_single_experiment pd_to_datetime reference_time folder_path = None).
Proof.
  split; [intros; apply process_test_file_no_density|].
  intros folder_path Hglob.
  destruct (load_environmental_data_unfold pd_to_datetime folder_path)
    as (ds_sbe & ds_tsticks & _ & _ & Hload).
  unfold process_sbe37cnv_data in Hload. rewrite Hglob in Hload.
  unfold process_single_experiment. rewrite Hload.
  destruct (_find_test_files folder_path) as [|f fs]; [done|].
  set (rows := flat_map _ _).
  assert (rows = []) as ->; [|done].
  subst rows. generalize (f :: fs). intros l.
  induction l as [|f' l IH]; [done|]. simpl.
  by rewrite process_test_file_no_density, IH.
Qed.

Lemma no_density_no_rows_witness :
  process_single_experiment iso_dates sample_reference_time sample_folder_no_density
  = None.
Proof.
  apply (no_density_no_rows iso_dates sample_reference_time). reflexivity.
Defined.

Lemma process_test_file_Some (reference_time : Z) (folder_path : folder)
    (test_file : file) (env : env_data) (row : gmap string pyval) :
  _process_test_file reference_time folder_path test_file env = Some row ->
  exists peak closest,
    max_timestamp_of test_file.2 = Ok peak /\
    _find_closest_measurements peak env = Ok closest /\
    row = row_data_of test_file peak closest.
Proof.
  unfold _process_test_file, process_test_file_body.
  destruct (max_timestamp_of test_file.2) as [peak|]; [|done]. cbn [rbind].
  destruct (_find_closest_measurements peak env) as [closest|] eqn:Hc; [|done].
  cbn [rbind].
  destruct (_create_info_file _ _ _ _ _); [|done]. cbn [rbind].
  intros [= <-]. exists peak, closest. done.
Qed.

Lemma process_single_experiment_inv (pd_to_datetime : string -> option Z)
    (reference_time : Z) (folder_path : folder) (rows : list (gmap string pyval)) :
  process_single_experiment pd_to_datetime reference_time folder_path = Some rows ->
  rows <> [] /\
  (length rows <= length (_find_test_files folder_path))%nat /\
  forall row : gmap string pyval,
    row ∈ rows ->
    row !! "experiment_folder" = Some (VStr (folder_name folder_path)) /\
    (exists f : file,
       f ∈ _find_test_files folder_path /\
       row !! "measurement_file_[.txt]" = Some (VStr f.1)) /\
    dom row = list_to_set df_columns.
Proof.
  unfold process_single_experiment.
  destruct (_load_environmental_data pd_to_datetime folder_path) as [|a b c] eqn:Henv;
    [done|].
  destruct (_find_test_files folder_path) as [|f fs] eqn:Hfiles; [done|].
  set (step := fun test_file : file => _).
  destruct (flat_map step (f :: fs)) as [|row0 rows0] eqn:Hrows; [done|].
  intros [= <-]. split; [done|]. rewrite <- Hrows. split.
  - generalize (f :: fs). intros l. induction l as [|f' l IH]; [done|].
    simpl. rewrite length_app.
    assert (length (step f') <= 1)%nat; [|lia].
    subst step. simpl. destruct (_process_test_file _ _ _ _); [|simpl; lia].
    case_decide; simpl; lia.
  - intros row Hrow.
    apply list_elem_of_In, in_flat_map in Hrow as (f' & Hf' & Hrow).
    apply list_elem_of_In in Hf', Hrow. subst step. simpl in Hrow.
    destruct (_process_test_file _ _ _ _) as [row_data|] eqn:Hp;
      [|by apply elem_of_nil in Hrow].
    case_decide; [by apply elem_of_nil in Hrow|].
    apply list_elem_of_singleton in Hrow as ->.
    apply process_test_file_Some in Hp as (peak & closest & _ & _ & ->).
    split; [reflexivity|]. split; [exists f'; split; [done|reflexivity]|].
    unfold row_data_of. rewrite !dom_insert_L, dom_empty_L. simpl. set_solver.
Qed.

(** X15. When [process_single_experiment] returns a frame, the frame has
    at least one row and at most one per test file; every row carries
    the name of the folder in [experiment_folder], the name of a test
    file of the folder in [measurement_file_[.txt]], and exactly the
    columns of [df_columns]. *)
Theorem experiment_rows_shape (pd_to_datetime : string -> option Z)
    (reference_time : Z) (folder_path : folder) (rows : list (gmap string pyval)) :
  process_single_experiment pd_to_datetime reference_time folder_path = Some rows ->
  rows <> [] /\
  (length rows <= length (_find_test_files folder_path))%nat /\
  forall row : gmap string pyval,
    row ∈ rows ->
    row !! "experiment_folder" = Some (VStr (folder_name folder_path)) /\
    (exists f : file,
       f ∈ _find_test_files folder_path /\
       row !! "measurement_file_[.txt]" = Some (VStr f.1)) /\
    dom row = list_to_set df_columns.
Proof. apply process_single_experiment_inv. Qed.

Lemma sample_folder_run :
  process_single_experiment iso_dates sample_reference_time sample_folder
  = Some [sample_row].
Proof. vm_compute. reflexivity. Qed.

Lemma experiment_rows_shape_witness :
  [sample_row] <> [] /\
  (length [sample_row] <= length (_find_test_files sample_folder))%nat /\
  sample_row !! "experiment_folder" = Some (VStr "exp1").
Proof.
  destruct (experiment_rows_shape _ _ _ _ sample_folder_run) as (Hne & Hlen & Hrow).
  split; [exact Hne|]. split; [exact Hlen|].
  exact (proj1 (Hrow sample_row (list_elem_of_here _ _))).
Defined.

(* ===================================================================== *)
(** ** utils/file_utils.py *)

Lemma concat_nonempty (sep x : string) (l : list string) :
  x <> "" -> String.concat sep (x :: l) <> "".
Proof.
  intros Hx. simpl. destruct l; [done|].
  destruct x; [done|]. discriminate.
Qed.

Lemma flush_comment_ok (st : comment_state) :
  comment_state_ok st -> comments_ok (flush_comment st).
Proof.
  intros [Hc Hb]. unfold flush_comment.
  destruct (cs_current_file st) as [cur|]; [|done].
  destruct (cs_buffer st) as [|x buf] eqn:Hbuf; [done|].
  destruct (Str.is_empty cur) eqn:Hcur; [done|].
  intros k v. rewrite lookup_insert. case_decide as Hk.
  - intros [= <-]. subst k. split.
    + intros ->. discriminate Hcur.
    + apply concat_nonempty. by apply Forall_cons in Hb as [? _].
  - apply Hc.
Qed.

Lemma comment_line_ok (st : comment_state) (line : string) :
  comment_state_ok st -> comment_state_ok (comment_line st line).
Proof.
  intros Hst. unfold comment_line.
  destruct (Str.startswith line "#").
  - split; [by apply flush_comment_ok|constructor].
  - destruct (Str.is_empty line) eqn:Hl; [done|]. simpl.
    destruct Hst as [Hc Hb]. split; [done|].
    apply Forall_app. split; [done|]. constructor; [|constructor].
    intros ->. discriminate Hl.
Qed.

Lemma foldl_comment_line_ok (lines : list string) :
  forall st, comment_state_ok st -> comment_state_ok (foldl comment_line st lines).
Proof.
  induction lines as [|l lines IH]; intros st Hst; [done|].
  simpl. by apply IH, comment_line_ok.
Qed.

(** X16. In the dictionary that [load_custom_comments] returns no key is
    the empty string and no comment is empty: a header without a name,
    or without text below it, makes no entry. *)
Theorem comments_never_empty (comment_file : option (list string)) (k v : string) :
  load_custom_comments comment_file !! k = Some v -> k <> "" /\ v <> "".
Proof.
  destruct comment_file as [file_lines|]; simpl; [|by intros ?%lookup_empty_Some].
  apply flush_comment_ok, foldl_comment_line_ok. split; [|constructor].
  intros k' v'. simpl. by intros ?%lookup_empty_Some.
Qed.

Lemma comments_never_empty_witness :
  "Test02_a.txt" <> "" /\
  "first crack at 12 s" +:+ nl +:+ "sample broke in two" <> "".
Proof.
  apply (comments_never_empty (Some sample_comment_lines)).
  vm_compute. reflexivity.
Defined.

Lemma flush_without_header (lines : list string) :
  forall (comments : gmap string string) (buf1 buf2 : list string),
    flush_comment (foldl comment_line (mkCommentState comments None buf1) lines)
    = flush_comment (foldl comment_line (mkCommentState comments None buf2) lines).
Proof.
  induction lines as [|l lines IH]; intros comments buf1 buf2; [done|].
  simpl. unfold comment_line at 2 4.
  destruct (Str.startswith l "#"); [done|].
  destruct (Str.is_empty l); simpl; apply IH.
Qed.

Lemma foldl_before_header (pre : list string) :
  Forall (fun l => Str.startswith l "#" = false) pre ->
  forall (comments : gmap string string) (buf : list string),
    exists buf',
      foldl comment_line (mkCommentState comments None buf) pre
      = mkCommentState comments None buf'.
Proof.
  induction 1 as [|l pre Hl _ IH]; intros comments buf; simpl; [eauto|].
  unfold comment_line at 2. rewrite Hl.
  destruct (Str.is_empty l); simpl; apply IH.
Qed.

(** X17. [load_custom_comments] returns the empty dictionary for a
    missing file, and the lines before the first header never reach a
    comment: with or without them the dictionary is the same. *)
Theorem comments_ignore_preamble (pre rest : list string) :
  Forall (fun l => Str.startswith (Str.strip l) "#" = false) pre ->
  load_custom_comments None = ∅ /\
  load_custom_comments (Some (pre ++ rest)) = load_custom_comments (Some rest).
Proof.
  intros Hpre. split; [done|]. unfold load_custom_comments.
  rewrite fmap_app, foldl_app.
  destruct (foldl_before_header (Str.strip <$> pre)) with (comments := (∅ : gmap string string)) (buf := @nil string)
    as [buf' ->].
  { by apply Forall_fmap. }
  apply flush_without_header.
Qed.

Lemma comments_ignore_preamble_witness :
  load_custom_comments (Some (["stray" +:+ nl] ++ tail sample_comment_lines))
  = load_custom_comments (Some (tail sample_comment_lines)).
Proof.
  apply (comments_ignore_preamble ["stray" +:+ nl]). repeat constructor.
Defined.

(* ===================================================================== *)
(** ** main.py: [run_analysis] *)

Section RunAnalysis.

Variable pd_to_datetime : string -> option Z.
Variable reference_time : Z.

Lemma process_folders_Some (folders : list folder)
    (existing final : list (gmap string pyval)) :
  process_folders pd_to_datetime reference_time folders existing = Some final ->
  final
  = existing ++ concat (omap (process_single_experiment pd_to_datetime reference_time)
                             (merge_sort folder_le folders)).
Proof.
  unfold process_folders. destruct existing as [|row existing].
  - simpl. destruct (omap _ _); [done|]. by intros [= <-].
  - simpl. by intros [= <-].
Qed.

Lemma new_rows_folder (folders : list folder) (row : gmap string pyval) :
  row ∈ concat (omap (process_single_experiment pd_to_datetime reference_time)
                     (merge_sort folder_le folders)) ->
  exists f : folder,
    f ∈ folders /\ row !! "experiment_folder" = Some (VStr (folder_name f)).
Proof.
  intros (rows & Hrows & Hrow)%list_elem_of_In%in_concat.
  apply list_elem_of_In, list_elem_of_omap in Hrows as (f & Hf & Hrun).
  rewrite merge_sort_Permutation in Hf. exists f. split; [done|].
  apply process_single_experiment_inv in Hrun as (_ & _ & Hshape).
  by apply Hshape, list_elem_of_In.
Qed.

Lemma filter_none {A : Type} (P : A -> Prop) `{!forall x, Decision (P x)} (l : list A) :
  (forall x, x ∈ l -> ~ P x) -> filter P l = [].
Proof.
  induction l as [|x l IH]; intros Hl; [done|].
  rewrite filter_cons, decide_False by (apply Hl; left).
  apply IH. intros y Hy. apply Hl. by right.
Qed.

Lemma filter_all {A : Type} (P : A -> Prop) `{!forall x, Decision (P x)} (l : list A) :
  (forall x, x ∈ l -> P x) -> filter P l = l.
Proof.
  induction l as [|x l IH]; intros Hl; [done|].
  rewrite filter_cons, decide_True by (apply Hl; left).
  f_equal. apply IH. intros y Hy. apply Hl. by right.
Qed.

(** X18. [run_analysis] raises [FileNotFoundError] when the base path is
    missing. With [skip_existing], when every visible folder is named in
    the master file nothing is processed and nothing is written; and a
    master file that cannot be read, which [get_processed_folders]
    survives, makes the run raise as soon as there is a folder to
    process. *)
Theorem run_analysis_skip_existing
    (master : option (result (list (gmap string pyval)))) :
  (forall skip_existing : bool,
     run_analysis pd_to_datetime reference_time None master skip_existing
     = Raise FileNotFoundError) /\
  (forall entries : list entry,
     (forall f : folder,
        f ∈ omap visible_dir entries ->
        folder_name f ∈ get_processed_folders master) ->
     run_analysis pd_to_datetime reference_time (Some entries) master true = Ok None) /\
  (forall (entries : list entry) (e : exn),
     master = Some (Raise e) ->
     omap visible_dir entries <> [] ->
     run_analysis pd_to_datetime reference_time (Some entries) master true = Raise e).
Proof.
  split; [done|]. split.
  - intros entries Hall. unfold run_analysis. simpl.
    rewrite filter_none; [done|]. intros f Hf Hnot. by apply Hnot, Hall.
  - intros entries e -> Hne. unfold run_analysis. simpl.
    rewrite filter_all by (intros f _; apply not_elem_of_empty).
    by destruct (omap visible_dir entries).
Qed.

(** X19. With [skip_existing], the frame written to the master file is
    the frame read from it followed by new rows, and every new row names
    in [experiment_folder] a visible folder that the master file did not
    name. Without [skip_existing] the master file is not read: what is
    written does not depend on it. *)
Theorem run_analysis_appends_new_rows (entries : list entry) :
  (forall existing final : list (gmap string pyval),
     run_analysis pd_to_datetime reference_time (Some entries) (Some (Ok existing)) true
     = Ok (Some final) ->
     exists new : list (gmap string pyval),
       final = existing ++ new /\
       forall row : gmap string pyval,
         row ∈ new ->
         exists f : folder,
           f ∈ omap visible_dir entries /\
           (folder_name f ∉ get_processed_folders (Some (Ok existing))) /\
           row !! "experiment_folder" = Some (VStr (folder_name f))) /\
  (forall master : option (result (list (gmap string pyval))),
     run_analysis pd_to_datetime reference_time (Some entries) master false
     = run_analysis pd_to_datetime reference_time (Some entries) None false).
Proof.
  split; [|done].
  intros existing final. unfold run_analysis. simpl.
  set (todo := filter _ _). destruct todo as [|f0 todo0] eqn:Htodo; [done|].
  intros [= Hrun]. apply process_folders_Some in Hrun.
  eexists. split; [exact Hrun|].
  intros row (f & Hf & Hrow)%new_rows_folder. exists f.
  rewrite <- Htodo in Hf. subst todo.
  apply list_elem_of_filter in Hf as [Hnot Hf]. done.
Qed.

End RunAnalysis.

Lemma run_analysis_skip_existing_witness :
  run_analysis iso_dates sample_reference_time (Some sample_base)
    (Some (Ok [sample_row; <["experiment_folder" := VStr "exp0"]> sample_row])) true
  = Ok None /\
  run_analysis iso_dates sample_reference_time (Some sample_base)
    (Some (Raise ValueError)) true
  = Raise ValueError.
Proof.
  split.
  - apply (run_analysis_skip_existing iso_dates sample_reference_time).
    intros f Hf. vm_compute in Hf.
    repeat (apply elem_of_cons in Hf as [->|Hf]; [vm_compute; set_solver|]).
    by apply elem_of_nil in Hf.
  - apply (run_analysis_skip_existing iso_dates sample_reference_time
             (Some (Raise ValueError))); [reflexivity|discriminate].
Defined.

Lemma run_analysis_appends_new_rows_witness :
  exists new : list (gmap string pyval),
    [sample_row; <["experiment_folder" := VStr "exp0"]> sample_row]
    = [sample_row] ++ new.
Proof.
  destruct (proj1 (run_analysis_appends_new_rows iso_dates sample_reference_time
                     sample_base)
              [sample_row]
              [sample_row; <["experiment_folder" := VStr "exp0"]> sample_row])
    as (new & Hnew & _).
  - vm_compute. reflexivity.
  - exists new. exact Hnew.
Defined.

(* ===================================================================== *)
(** ** Lines and rows *)

Lemma sbe_line_rows_inv (line : string) (r : sbe_row) :
  r ∈ sbe_line_rows line ->
  DT.to_datetime (Str.slice 1 24 line) sbe_format = Some (sbe_datetime r) /\
  Str.contains "#" line = true /\
  sbe_line_rows line = [r].
Proof.
  unfold sbe_line_rows.
  destruct (DT.to_datetime _ _) as [t|]; [|by intros ?%elem_of_nil].
  destruct (Str.contains "#" line); [|by intros ?%elem_of_nil].
  destruct (5 <=? _)%nat; [|by intros ?%elem_of_nil].
  destruct (Num.py_float _) as [T|]; [|by intros ?%elem_of_nil].
  destruct (Num.py_float _) as [SV|]; [|by intros ?%elem_of_nil].
  destruct (Num.py_float _) as [S|]; [|by intros ?%elem_of_nil].
  by intros ->%list_elem_of_singleton.
Qed.

(** X20. Every row of the CTD table stems from one line of a matched
    file: the line starts with a bracket, the 23 characters after it are
    the row's timestamp, it holds a [#], and it gives this row only. The
    table has at most as many rows as the matched files have lines. *)
Theorem sbe_rows_from_lines (dir : list file) (pattern : string) (ds : sbe_dataset) :
  read_sbe_data dir pattern = Ok (Some ds) ->
  (forall r : sbe_row,
     r ∈ ds ->
     exists (f : file) (line : string),
       f ∈ sorted_glob dir pattern /\ line ∈ f.2 /\
       Str.startswith line "[" = true /\
       DT.to_datetime (Str.slice 1 24 line) sbe_format = Some (sbe_datetime r) /\
       Str.contains "#" line = true /\
       sbe_line_rows line = [r]) /\
  (length ds <= length (flat_map snd (sorted_glob dir pattern)))%nat.
Proof.
  intros [_ ->]%read_sbe_data_Ok. split.
  - intros r Hr. unfold sbe_rows in Hr.
    apply list_elem_of_In, in_flat_map in Hr as (f & Hf & Hr).
    unfold sbe_file_rows in Hr. apply in_flat_map in Hr as (line & Hline & Hr).
    apply list_elem_of_In, list_elem_of_filter in Hline as [Hvalid Hline].
    apply list_elem_of_In, sbe_line_rows_inv in Hr as (Ht & Hhash & Hone).
    exists f, line. split; [by apply list_elem_of_In|]. split; [done|].
    split; [|done]. unfold is_valid_datetime in Hvalid.
    by destruct (Str.startswith line "[").
  - unfold sbe_rows. generalize (sorted_glob dir pattern). intros files.
    induction files as [|f files IH]; [done|]. simpl. rewrite !length_app.
    assert (length (sbe_file_rows f.2) <= length f.2)%nat; [|lia].
    unfold sbe_file_rows. generalize f.2. intros lines.
    induction lines as [|l lines IHl]; [done|]. rewrite filter_cons.
    case_decide; simpl; [|lia]. rewrite length_app.
    assert (length (sbe_line_rows l) <= 1)%nat; [|lia].
    unfold sbe_line_rows. repeat case_match; simpl; lia.
Qed.

Lemma sbe_rows_from_lines_witness :
  (length sample_sbe_dataset
   <= length (flat_map snd (sorted_glob (folder_files sample_folder) "SBE*.log")))%nat.
Proof.
  exact (proj2 (sbe_rows_from_lines _ _ _ sample_sbe_run)).
Defined.

Lemma find_end_index_first (pre post : list string) (marker : string) :
  Forall (fun l => Str.contains "*END*" l = false) pre ->
  Str.contains "*END*" marker = true ->
  find_end_index (pre ++ marker :: post) = Some (length pre).
Proof.
  intros Hpre Hm. induction Hpre as [|l pre Hl _ IH]; simpl.
  - by rewrite Hm.
  - by rewrite Hl, IH.
Qed.

(** X21. The rows of a density file are read from the lines after its
    first [*END*] line only: what stands before the marker, numeric or
    not, gives no row, and a line after it gives a row exactly when its
    first seven fields are numbers. *)
Theorem density_rows_after_marker (name marker : string) (pre post : list string) :
  Forall (fun l => Str.contains "*END*" l = false) pre ->
  Str.contains "*END*" marker = true ->
  density_file_rows (name, pre ++ marker :: post)
  = flat_map density_line_rows post /\
  forall (line : string) (row : list Q),
    row ∈ density_line_rows line <->
    (7 <= length (Str.split_ws line))%nat /\
    mapM Num.py_float (take 7 (Str.split_ws line)) = Some row.
Proof.
  intros Hpre Hm. split.
  - unfold density_file_rows. simpl.
    rewrite (find_end_index_first pre post marker Hpre Hm).
    replace (pre ++ marker :: post) with ((pre ++ [marker]) ++ post)
      by (by rewrite <- app_assoc).
    rewrite drop_app_length'; [done|]. rewrite length_app. simpl. lia.
  - intros line row. unfold density_line_rows, floats.
    destruct (Nat.leb_spec 7 (length (Str.split_ws line))) as [Hle|Hlt].
    + destruct (mapM _ _) as [row'|].
      * rewrite list_elem_of_singleton. split; [by intros ->|]. by intros [_ [= ->]].
      * split; [by intros ?%elem_of_nil|]. by intros [_ ?].
    + split; [by intros ?%elem_of_nil|]. intros [? _]. lia.
Qed.

Lemma density_rows_after_marker_witness :
  density_file_rows
    ("probe.cnv",
     ["  33.3000  -1.4000  100.0  1.5  1441.0  1026.5  0.0" +:+ nl]
       ++ ("*END*" +:+ nl)
       :: ["  33.3000  -1.4000  100.0  1.5  1441.0  1026.5  0.0" +:+ nl])
  = flat_map density_line_rows
      ["  33.3000  -1.4000  100.0  1.5  1441.0  1026.5  0.0" +:+ nl].
Proof.
  apply (density_rows_after_marker "probe.cnv"); [|reflexivity].
  repeat constructor.
Defined.
